(** * js-did: the [DID] class of [src/index.ts]

    A shallow embedding of the identity handle ([class DID]) and a
    verification of its authentication handshake, envelope checks, provider
    binding and encryption fallback.

    The class keeps three private fields and talks to four collaborators
    (the RPC provider, the DID resolver, [did-jwt] and the codec helpers of
    [./utils] and [dag-jose-utils]).  Methods are embedded as computations
    in a state-and-exception monad over a [World] that contains the
    instance, the heap of caller-owned option objects, the wall clock, the
    entropy position and the trace of collaborator calls.  An [await] is a
    sequencing point: calls are modelled one at a time. *)

From Stdlib Require Import ZArith String Ascii List Bool Lia.
From stdpp Require Import base option list gmap strings.

Local Open Scope string_scope.
Local Open Scope Z_scope.
Local Set Warnings "-register-all".

(** ** JSON values

    [base64urlToJSON] returns a [Record<string, any>]: an object whose
    properties are JSON values. *)

Inductive json : Type :=
| JNull
| JBool (b : bool)
| JNum (n : Z)
| JStr (s : string)
| JArr (xs : list json)
| JObj (props : list (string * json)).

(** [Record<string, any>], properties in source order. *)
Definition record : Type := list (string * json).

(** Property read [o.k]; [None] is JavaScript's [undefined]. *)
Fixpoint field (k : string) (o : record) : option json :=
  match o with
  | [] => None
  | (k', v) :: o' => if String.eqb k k' then Some v else field k o'
  end.

(** ** Strings: [String.prototype.split] on one character and
    [String.prototype.includes]. *)

Fixpoint split (sep : ascii) (s : string) : list string :=
  match s with
  | EmptyString => [EmptyString]
  | String c s' =>
      if Ascii.eqb c sep then EmptyString :: split sep s'
      else match split sep s' with
           | [] => [String c EmptyString]
           | x :: xs => String c x :: xs
           end
  end.

Fixpoint startsWith (sub s : string) : bool :=
  match sub, s with
  | EmptyString, _ => true
  | String a sub', String b s' => Ascii.eqb a b && startsWith sub' s'
  | String _ _, EmptyString => false
  end.

Fixpoint includes (s sub : string) : bool :=
  startsWith sub s
  || match s with
     | EmptyString => false
     | String _ s' => includes s' sub
     end.

(** ** Interfaces of [index.ts] and of the collaborators' data *)

Definition bytes : Type := list Byte.byte.

(** A [DIDProvider] is an [RPCConnection] object; the class compares
    connections with [!==], that is by reference, so a connection is
    represented by its reference. *)
Definition DIDProvider : Type := nat.

(** [new RPCClient(provider)] keeps the connection it was built from. *)
Record RPCClient : Type := mkRPCClient { connection : DIDProvider }.

(** A [Resolver] instance, by reference. *)
Definition Resolver : Type := nat.

Module PublicKey.
Record t : Type := mk { id : string; publicKeyHex : option string }.
End PublicKey.

Module DIDDocument.
Record t : Type := mk { publicKey : list PublicKey.t }.
End DIDDocument.

Module CID.
Record t : Type := mk { bytes : list Byte.byte }.
End CID.

Module JWSSignature.
Record t : Type := mk { protected : string; signature : string }.
End JWSSignature.

Module DagJWS.
Record t : Type := mk {
  payload : string;
  signatures : list JWSSignature.t;
  link : option CID.t
}.
End DagJWS.

Module AuthenticateOptions.
Record t : Type := mk {
  provider : option DIDProvider;
  aud : option string;
  paths : option (list string)
}.
End AuthenticateOptions.

Module AuthenticateParams.
Record t : Type := mk {
  nonce : string;
  aud : option string;
  paths : option (list string)
}.
End AuthenticateParams.

(** [exp] is a NumericDate in whole seconds. *)
Module AuthenticateResponse.
Record t : Type := mk {
  did : string;
  nonce : string;
  aud : option string;
  exp : Z
}.
End AuthenticateResponse.

Module CreateJWSOptions.
Record t : Type := mk {
  did : option string;
  protected : option record;
  linkedBlock : option string
}.
(** The object literal [{}]. *)
Definition empty : t := mk None None None.
End CreateJWSOptions.

(** [{ ...options, payload }]: a fresh object with the properties of
    [options] copied into it. *)
Module CreateJWSParams.
Record t : Type := mk {
  did : option string;
  protected : option record;
  linkedBlock : option string;
  payload : json
}.
End CreateJWSParams.

Module CreateJWEOptions.
Record t : Type := mk {
  protectedHeader : option record;
  aad : option (list Byte.byte)
}.
Definition empty : t := mk None None.
End CreateJWEOptions.

Module CreateJWEParams.
Record t : Type := mk {
  protectedHeader : option record;
  aad : option (list Byte.byte);
  cleartext : list Byte.byte;
  recipients : list string
}.
End CreateJWEParams.

Module VerifyJWSResult.
Record t : Type := mk { kid : string; payload : option record }.
End VerifyJWSResult.

Module DagJWSResult.
Record t : Type := mk { jws : DagJWS.t; linkedBlock : list Byte.byte }.
End DagJWSResult.

(** The encrypted envelope of [did-jwt] and its encrypters are opaque to
    the class; an envelope is identified by a serialisation, an encrypter
    by the key it encrypts to. *)
Definition JWE : Type := string.
Definition Encrypter : Type := string.

(** ** Errors

    Each [throw new Error(...)] of the class, named after the error kinds of
    the specification, and the failures raised inside a collaborator, which
    the class passes on unchanged. *)

Inductive AuthFailure : Type :=
| KidMismatch   (* 'Invalid authencation response, kid mismatch' *)
| WrongNonce    (* 'Invalid authencation response, wrong nonce' *)
| WrongAud      (* 'Invalid authencation response, wrong aud' *)
| Expired.      (* 'Invalid authencation response, expired' *)

Inductive Error : Type :=
| NoProvider          (* 'No provider available' *)
| ProviderConflict    (* 'A different provider is already set, ...' *)
| NotAuthenticated    (* 'DID is not authenticated' *)
| InvalidAuthenticationResponse (reason : AuthFailure)
| MissingKid          (* 'No kid found in jws' *)
| TypeError           (* property read on undefined *)
| TransportFailed     (* RPCClient.request rejected *)
| ResolutionFailed    (* Resolver.resolve rejected *)
| VerificationFailed  (* did-jwt verifyJWS threw *)
| CodecFailed         (* a helper of ./utils or dag-jose-utils threw *)
| EncryptionFailed    (* resolveX25519Encrypters or did-jwt createJWE threw *)
| IllTyped.           (* a value outside the type its cast declares *)

Inductive Result (A : Type) : Type :=
| Ok (a : A)
| Throw (e : Error).
Arguments Ok {A} a.
Arguments Throw {A} e.

(** ** The instance and the world around it *)

Record DID : Type := mkDID {
  _client : option RPCClient;
  _id : option string;
  _resolver : Resolver
}.

(** Calls that leave the instance. *)
Inductive Event : Type :=
| Requested (conn : DIDProvider) (method : string)
| Resolved (resolver : Resolver) (didUrl : option string)
| ResolvedEncrypters (resolver : Resolver) (recipients : list string).

(** References to caller-owned [CreateJWSOptions] objects. *)
Definition loc : Type := nat.

Record World : Type := mkWorld {
  self : DID;
  heap : gmap nat CreateJWSOptions.t;
  trace : list Event;
  Date_now : Z;      (* milliseconds since the epoch *)
  drawn : nat        (* number of random strings drawn so far *)
}.

Definition with_self (d : DID) (w : World) : World :=
  mkWorld d (heap w) (trace w) (Date_now w) (drawn w).
Definition with_heap (h : gmap nat CreateJWSOptions.t) (w : World) : World :=
  mkWorld (self w) h (trace w) (Date_now w) (drawn w).
Definition with_event (e : Event) (w : World) : World :=
  mkWorld (self w) (heap w) (trace w ++ [e]) (Date_now w) (drawn w).
Definition with_draw (w : World) : World :=
  mkWorld (self w) (heap w) (trace w) (Date_now w) (S (drawn w)).

(** An object reference always designates an object; a reference the heap
    does not list designates an object without properties. *)
Definition deref (h : gmap nat CreateJWSOptions.t) (l : loc) : CreateJWSOptions.t :=
  default CreateJWSOptions.empty (h !! l).

(** ** The monad of methods *)

Definition M (A : Type) : Type := World -> Result A * World.

Definition ret {A} (a : A) : M A := fun w => (Ok a, w).
Definition throw {A} (e : Error) : M A := fun w => (Throw e, w).
Definition bind {A B} (m : M A) (k : A -> M B) : M B :=
  fun w => match m w with
           | (Ok a, w') => k a w'
           | (Throw e, w') => (Throw e, w')
           end.
(** [try { m } catch (err) { h }]: what [m] did to the world stays done. *)
Definition try_catch {A} (m : M A) (h : Error -> M A) : M A :=
  fun w => match m w with
           | (Ok a, w') => (Ok a, w')
           | (Throw e, w') => h e w'
           end.
Definition get : M World := fun w => (Ok w, w).
Definition modify (f : World -> World) : M unit := fun w => (Ok tt, f w).
(** A collaborator's answer: [None] is a throw or a rejected promise. *)
Definition lift {A} (e : Error) (o : option A) : M A :=
  match o with Some a => ret a | None => throw e end.

Declare Scope did_scope.
Delimit Scope did_scope with did.
Notation "x <- m ;; k" := (bind m (fun x => k))
  (at level 100, m at next level, right associativity) : did_scope.
Notation "m ;;; k" := (bind m (fun _ => k))
  (at level 100, right associativity) : did_scope.
Local Open Scope did_scope.

(** The outcome of a method and the world it leaves. *)
Definition outcome {A} (m : M A) (w : World) : Result A := fst (m w).
Definition after {A} (m : M A) (w : World) : World := snd (m w).

(** ** Lifecycle and provider binding *)

(** [get authenticated()] *)
Definition authenticated : M bool :=
  w <- get ;;
  ret (match _id (self w) with Some _ => true | None => false end).

(** [get id()] *)
Definition id : M string :=
  w <- get ;;
  match _id (self w) with
  | None => throw NotAuthenticated
  | Some i => ret i
  end.

Definition set_client (c : option RPCClient) (w : World) : World :=
  with_self (mkDID c (_id (self w)) (_resolver (self w))) w.
Definition set_id (i : option string) (w : World) : World :=
  with_self (mkDID (_client (self w)) i (_resolver (self w))) w.

(** [setProvider(provider)] *)
Definition setProvider (provider : DIDProvider) : M unit :=
  w <- get ;;
  match _client (self w) with
  | None => modify (set_client (Some (mkRPCClient provider)))
  | Some c =>
      if Nat.eqb (connection c) provider then ret tt
      else throw ProviderConflict
  end.

(** [clearProvider()] *)
Definition clearProvider : M unit :=
  w <- get ;;
  match _client (self w) with
  | Some _ => modify (set_client None)
  | None => ret tt
  end.

(** [deauthenticate()] *)
Definition deauthenticate : M unit :=
  clearProvider ;;;
  modify (set_id None).

(** ** Collaborators

    Everything the class imports: the helpers of [./utils], the RPC client
    of [rpc-utils], the resolver of [did-resolver], the signature and
    encryption functions of [did-jwt] and the codec of [dag-jose-utils].
    Their code is not part of [index.ts]; the class is verified for every
    behaviour they may have.  [None] stands for a throw or a rejection. *)

Class Collaborators : Type := {
  (* ./utils *)
  randomString : nat -> string;
  fromDagJWS : DagJWS.t -> option string;
  base64urlToJSON : string -> option record;
  encodeBase64 : bytes -> string;
  encodeBase64Url : bytes -> string;
  (* rpc-utils: RPCClient.request, by method *)
  request_did_authenticate : DIDProvider -> AuthenticateParams.t -> option DagJWS.t;
  request_did_createJWS : DIDProvider -> CreateJWSParams.t -> option DagJWS.t;
  request_did_createJWE : DIDProvider -> CreateJWEParams.t -> option JWE;
  (* did-resolver: Resolver.resolve; a missing argument is [None] *)
  Resolver_resolve : Resolver -> option string -> option DIDDocument.t;
  (* did-jwt *)
  did_jwt_verifyJWS : string -> list PublicKey.t -> bool;
  resolveX25519Encrypters : list string -> Resolver -> option (list Encrypter);
  did_jwt_createJWE :
    bytes -> list Encrypter -> option record -> option bytes -> option JWE;
  (* dag-jose-utils *)
  encodePayload : record -> option (CID.t * bytes)
}.

Section Methods.
Context `{Collaborators}.

(** [this._client.request(method, params)] *)
Definition request {P R} (method : string) (call : DIDProvider -> P -> option R)
    (c : RPCClient) (params : P) : M R :=
  modify (with_event (Requested (connection c) method)) ;;;
  lift TransportFailed (call (connection c) params).

(** [this._resolver.resolve(didUrl)] *)
Definition resolver_resolve (didUrl : option string) : M DIDDocument.t :=
  w <- get ;;
  modify (with_event (Resolved (_resolver (self w)) didUrl)) ;;;
  lift ResolutionFailed (Resolver_resolve (_resolver (self w)) didUrl).

(** [resolve(didUrl)] *)
Definition resolve (didUrl : string) : M DIDDocument.t :=
  resolver_resolve (Some didUrl).

(** [jws.split('.')[i]] *)
Definition segment (i : nat) (jws : string) : option string :=
  split "." jws !! i.

(** [verifyJWS(jws)].  The header's [kid] is cast to [string]; [!kid]
    holds of an absent property and of the falsy values.  The [try] block
    around the payload turns a segment that is missing or does not decode
    into an absent payload. *)
Definition verifyJWS (jws : string + DagJWS.t) : M VerifyJWSResult.t :=
  jws <- match jws with
         | inl s => ret s
         | inr d => lift CodecFailed (fromDagJWS d)
         end ;;
  header <- lift CodecFailed (segment 0 jws ≫= base64urlToJSON) ;;
  kid <- match field "kid" header with
         | None | Some JNull | Some (JBool false) | Some (JNum 0)
         | Some (JStr "") => throw MissingKid
         | Some (JStr kid) => ret kid
         | Some _ => throw IllTyped
         end ;;
  doc <- resolve kid ;;
  (if did_jwt_verifyJWS jws (DIDDocument.publicKey doc) then ret tt
   else throw VerificationFailed) ;;;
  let payload := segment 1 jws ≫= base64urlToJSON in
  ret (VerifyJWSResult.mk kid payload).

(** [base64urlToJSON(jws.payload) as AuthenticateResponse] *)
Definition as_AuthenticateResponse (o : record) : option AuthenticateResponse.t :=
  match field "did" o, field "nonce" o, field "exp" o with
  | Some (JStr d), Some (JStr n), Some (JNum e) =>
      match field "aud" o with
      | None => Some (AuthenticateResponse.mk d n None e)
      | Some (JStr a) => Some (AuthenticateResponse.mk d n (Some a) e)
      | Some _ => None
      end
  | _, _, _ => None
  end.

(** [a !== b] on [string | undefined] *)
Definition strict_neq (a b : option string) : bool :=
  match a, b with
  | None, None => false
  | Some x, Some y => negb (String.eqb x y)
  | _, _ => true
  end.

(** [authenticate({ provider, paths, aud })].  [Date.now() / 1000] is
    compared with a whole number of seconds, so [exp < Date.now() / 1000]
    is [exp * 1000 < Date.now()]. *)
Definition authenticate (opts : AuthenticateOptions.t) : M string :=
  match AuthenticateOptions.provider opts with
  | Some provider => setProvider provider
  | None => ret tt
  end ;;;
  w <- get ;;
  match _client (self w) with
  | None => throw NoProvider
  | Some client =>
      let nonce := randomString (drawn w) in
      modify with_draw ;;;
      jws <- request "did_authenticate" request_did_authenticate client
               (AuthenticateParams.mk nonce (AuthenticateOptions.aud opts)
                  (AuthenticateOptions.paths opts)) ;;
      r <- verifyJWS (inr jws) ;;
      let kid := VerifyJWSResult.kid r in
      decoded <- lift CodecFailed (base64urlToJSON (DagJWS.payload jws)) ;;
      payload <- lift IllTyped (as_AuthenticateResponse decoded) ;;
      if negb (includes kid (AuthenticateResponse.did payload))
      then throw (InvalidAuthenticationResponse KidMismatch)
      else if negb (String.eqb (AuthenticateResponse.nonce payload) nonce)
      then throw (InvalidAuthenticationResponse WrongNonce)
      else if strict_neq (AuthenticateResponse.aud payload)
                (AuthenticateOptions.aud opts)
      then throw (InvalidAuthenticationResponse WrongAud)
      else
        now <- (w <- get ;; ret (Date_now w)) ;;
        if AuthenticateResponse.exp payload * 1000 <? now
        then throw (InvalidAuthenticationResponse Expired)
        else
          modify (set_id (Some (AuthenticateResponse.did payload))) ;;;
          w <- get ;;
          lift IllTyped (_id (self w))
  end.

(** A default parameter [options = {}]: the caller's object when one is
    passed, a new object otherwise. *)
Definition options_or_new (options : option loc) : M loc :=
  match options with
  | Some l => ret l
  | None =>
      w <- get ;;
      let l := fresh (dom (heap w)) in
      modify (with_heap (<[l := CreateJWSOptions.empty]> (heap w))) ;;;
      ret l
  end.

(** Assignments to properties of the object at [l]. *)
Definition assign (f : CreateJWSOptions.t -> CreateJWSOptions.t) (l : loc) : M unit :=
  modify (fun w => with_heap (<[l := f (deref (heap w) l)]> (heap w)) w).
Definition set_did (v : option string) (o : CreateJWSOptions.t) :=
  CreateJWSOptions.mk v (CreateJWSOptions.protected o)
    (CreateJWSOptions.linkedBlock o).
Definition set_linkedBlock (v : string) (o : CreateJWSOptions.t) :=
  CreateJWSOptions.mk (CreateJWSOptions.did o) (CreateJWSOptions.protected o)
    (Some v).

(** [!s] on [string | undefined] *)
Definition falsy (s : option string) : bool :=
  match s with
  | None | Some "" => true
  | Some _ => false
  end.

(** [createJWS(payload, options)] *)
Definition createJWS (payload : json) (options : option loc) : M DagJWS.t :=
  options <- options_or_new options ;;
  w <- get ;;
  match _client (self w) with
  | None => throw NoProvider
  | Some client =>
      match _id (self w) with
      | None => throw NotAuthenticated
      | Some i =>
          (if falsy (CreateJWSOptions.did (deref (heap w) options))
           then assign (set_did (Some i)) options
           else ret tt) ;;;
          w <- get ;;
          let o := deref (heap w) options in
          request "did_createJWS" request_did_createJWS client
            (CreateJWSParams.mk (CreateJWSOptions.did o)
               (CreateJWSOptions.protected o)
               (CreateJWSOptions.linkedBlock o) payload)
      end
  end.

(** [createDagJWS(payload, options)] *)
Definition createDagJWS (payload : record) (options : option loc)
    : M DagJWSResult.t :=
  options <- options_or_new options ;;
  enc <- lift CodecFailed (encodePayload payload) ;;
  let '(cid, linkedBlock) := enc in
  let payloadCid := encodeBase64Url (CID.bytes cid) in
  assign (set_linkedBlock (encodeBase64 linkedBlock)) options ;;;
  jws <- createJWS (JStr payloadCid) (Some options) ;;
  let jws := DagJWS.mk (DagJWS.payload jws) (DagJWS.signatures jws) (Some cid) in
  ret (DagJWSResult.mk jws linkedBlock).

(** [createJWE(cleartext, recipients, options)] *)
Definition createJWE (cleartext : bytes) (recipients : list string)
    (options : CreateJWEOptions.t) : M JWE :=
  w <- get ;;
  match _client (self w) with
  | None => throw NoProvider
  | Some client =>
      didDoc <- resolver_resolve (recipients !! 0%nat) ;;
      match DIDDocument.publicKey didDoc !! 0%nat with
      | None => throw TypeError
      | Some key0 =>
          let recepients :=
            if falsy (PublicKey.publicKeyHex key0) then []
            else match PublicKey.publicKeyHex key0 with
                 | Some hex => [hex]
                 | None => []
                 end in
          try_catch
            (request "did_createJWE" request_did_createJWE client
               (CreateJWEParams.mk
                  (CreateJWEOptions.protectedHeader options)
                  (CreateJWEOptions.aad options) cleartext recepients))
            (fun err =>
               w <- get ;;
               modify (with_event
                         (ResolvedEncrypters (_resolver (self w)) recipients)) ;;;
               encrypters <- lift EncryptionFailed
                               (resolveX25519Encrypters recipients
                                  (_resolver (self w))) ;;
               lift EncryptionFailed
                 (did_jwt_createJWE cleartext encrypters
                    (CreateJWEOptions.protectedHeader options)
                    (CreateJWEOptions.aad options)))
      end
  end.

End Methods.

(** ** The rest of the class: construction, resolver, decryption

    The constructor and [setResolver] receive objects and look at them with
    the [in] operator; [decryptJWE] and the two [Dag] variants of encryption
    use one more provider method and three more codec helpers. *)

Module DecryptJWEParams.
Record t : Type := mk { did : option string; jwe : JWE }.
End DecryptJWEParams.

Module DIDOptions.
Record t : Type := mk {
  provider : option DIDProvider;
  resolver : option nat;     (* a [Resolver] or a [ResolverRegistry] object *)
  cache : option nat         (* a [DIDCache] object *)
}.
End DIDOptions.

Class Decryption : Type := {
  (* ./utils *)
  decodeBase64 : string -> option bytes;
  (* dag-jose-utils *)
  prepareCleartext : record -> option bytes;
  decodeCleartext : bytes -> option record;
  (* rpc-utils: the [cleartext] of the [DecryptJWEResult] *)
  request_did_decryptJWE : DIDProvider -> DecryptJWEParams.t -> option string
}.

(** Objects handed to the class by reference: which property names an
    object has, what [new Resolver(registry, cache)] builds from a registry
    object, and the object literal [{}], which has no property. *)
Class Objects : Type := {
  has_property : nat -> string -> bool;
  new_Resolver : nat -> option nat -> Resolver;
  empty_object : nat;
  empty_object_has_no_property : forall k, has_property empty_object k = false
}.

Section MoreMethods.
Context `{Collaborators} `{Decryption} `{Objects}.

(** [isResolver(resolver)] *)
Definition isResolver (resolver : nat) : bool :=
  has_property resolver "registry" && has_property resolver "cache".

Definition set_resolver (r : Resolver) (w : World) : World :=
  with_self (mkDID (_client (self w)) (_id (self w)) r) w.

(** [setResolver(resolver, cache)] *)
Definition setResolver (resolver : nat) (cache : option nat) : M unit :=
  modify (set_resolver
            (if isResolver resolver then resolver
             else new_Resolver resolver cache)).

(** [constructor({ provider, resolver = {}, cache })]: the fields of the
    new instance start out [undefined]. *)
Definition constructor (opts : DIDOptions.t) : M unit :=
  modify (fun w => with_self (mkDID None None (_resolver (self w))) w) ;;;
  match DIDOptions.provider opts with
  | Some provider => modify (set_client (Some (mkRPCClient provider)))
  | None => ret tt
  end ;;;
  setResolver (default empty_object (DIDOptions.resolver opts))
    (DIDOptions.cache opts).

(** [createDagJWE(cleartext, recipients, options)]: the argument
    [prepareCleartext(cleartext)] is evaluated before [createJWE] is
    entered. *)
Definition createDagJWE (cleartext : record) (recipients : list string)
    (options : CreateJWEOptions.t) : M JWE :=
  prepared <- lift CodecFailed (prepareCleartext cleartext) ;;
  createJWE prepared recipients options.

(** [decryptJWE(jwe, options)].  The options object is read and written
    through its [did] property only. *)
Definition decryptJWE (jwe : JWE) (options : option loc) : M bytes :=
  options <- options_or_new options ;;
  w <- get ;;
  match _client (self w) with
  | None => throw NoProvider
  | Some client =>
      match _id (self w) with
      | None => throw NotAuthenticated
      | Some i =>
          (if falsy (CreateJWSOptions.did (deref (heap w) options))
           then assign (set_did (Some i)) options
           else ret tt) ;;;
          w <- get ;;
          let o := deref (heap w) options in
          cleartext <- request "did_decryptJWE" request_did_decryptJWE client
                         (DecryptJWEParams.mk (CreateJWSOptions.did o) jwe) ;;
          lift CodecFailed (decodeBase64 cleartext)
      end
  end.

(** [decryptDagJWE(jwe)] *)
Definition decryptDagJWE (jwe : JWE) : M record :=
  bytes <- decryptJWE jwe None ;;
  lift CodecFailed (decodeCleartext bytes).

End MoreMethods.

(** ** Vocabulary of the statements *)

(** The connection [authenticate] talks to: the one passed with the call if
    [setProvider] accepts it, the bound one otherwise. *)
Definition provider_in_use (opts : AuthenticateOptions.t) (d : DID)
    : option DIDProvider :=
  match AuthenticateOptions.provider opts, _client d with
  | None, None => None
  | None, Some c => Some (connection c)
  | Some p, None => Some p
  | Some p, Some c => if Nat.eqb (connection c) p then Some p else None
  end.

(** The first check of [authenticate] that a decoded response violates, in
    the order of the source. *)
Definition first_violation (kid nonce : string) (aud : option string) (now : Z)
    (payload : AuthenticateResponse.t) : option AuthFailure :=
  if negb (includes kid (AuthenticateResponse.did payload)) then Some KidMismatch
  else if negb (String.eqb (AuthenticateResponse.nonce payload) nonce)
  then Some WrongNonce
  else if strict_neq (AuthenticateResponse.aud payload) aud then Some WrongAud
  else if AuthenticateResponse.exp payload * 1000 <? now then Some Expired
  else None.

(** The three checks of [authenticate] that do not read the clock. *)
Definition other_checks_pass (kid nonce : string) (aud : option string)
    (payload : AuthenticateResponse.t) : Prop :=
  includes kid (AuthenticateResponse.did payload) = true /\
  AuthenticateResponse.nonce payload = nonce /\
  AuthenticateResponse.aud payload = aud.

(** [!v] for a property read that gave a JSON value or [undefined]. *)
Definition not_truthy (v : option json) : bool :=
  match v with
  | None | Some JNull | Some (JBool false) | Some (JNum 0) | Some (JStr "") => true
  | Some _ => false
  end.

(** Compact form of the argument of [verifyJWS]. *)
Definition compact_of `{Collaborators} (jws : string + DagJWS.t) : option string :=
  match jws with
  | inl s => Some s
  | inr d => fromDagJWS d
  end.

(** Two worlds that differ at most in the instance's provider binding and
    in the record of calls made. *)
Definition same_but_binding (w w' : World) : Prop :=
  _id (self w') = _id (self w) /\
  _resolver (self w') = _resolver (self w) /\
  heap w' = heap w /\
  Date_now w' = Date_now w.

(** ** A concrete provider, resolver and codec

    A provider at connection [7] that answers every challenge with one
    signed envelope: issued to [aud = app], expiring at second [1700000000],
    echoing the nonce [r0]. *)

Module Demo.

Definition header : record := [("alg", JStr "ES256K"); ("kid", JStr "did:ex:1#key-1")].
Definition anonymous_header : record := [("alg", JStr "ES256K")].
Definition response : record :=
  [("did", JStr "did:ex:1"); ("nonce", JStr "r0"); ("aud", JStr "app");
   ("exp", JNum 1700000000)].

Definition envelope : DagJWS.t :=
  DagJWS.mk "pl" [JWSSignature.mk "hdr" "sig"] None.

Definition keyed_doc : DIDDocument.t :=
  DIDDocument.mk [PublicKey.mk "did:ex:1#key-1" (Some "04ab")].
Definition keyless_doc : DIDDocument.t :=
  DIDDocument.mk [PublicKey.mk "did:ex:2#key-1" None].
Definition empty_doc : DIDDocument.t := DIDDocument.mk [].

#[local] Instance world : Collaborators := {|
  randomString n := match n with O => "r0" | _ => "r1" end;
  fromDagJWS d :=
    match DagJWS.signatures d with
    | [s] => Some (JWSSignature.protected s ++ "." ++ DagJWS.payload d
                   ++ "." ++ JWSSignature.signature s)
    | _ => None
    end;
  base64urlToJSON s :=
    if String.eqb s "hdr" then Some header
    else if String.eqb s "anon" then Some anonymous_header
    else if String.eqb s "pl" then Some response
    else None;
  encodeBase64 b := "b64:" ++ string_of_list_ascii (map ascii_of_byte b);
  encodeBase64Url b := "b64u:" ++ string_of_list_ascii (map ascii_of_byte b);
  request_did_authenticate conn params :=
    if Nat.eqb conn 7 then Some envelope else None;
  request_did_createJWS conn params :=
    if Nat.eqb conn 7
    then Some (DagJWS.mk "cid" [JWSSignature.mk "hdr" "sig"] None)
    else None;
  request_did_createJWE conn params :=
    match CreateJWEParams.recipients params with
    | [] => None
    | _ => Some "jwe-from-provider"
    end;
  Resolver_resolve r didUrl :=
    match didUrl with
    | Some "did:ex:1#key-1" | Some "did:ex:1" => Some keyed_doc
    | Some "did:ex:2" => Some keyless_doc
    | Some "did:ex:3" => Some empty_doc
    | _ => None
    end;
  did_jwt_verifyJWS jws keys :=
    match keys with
    | [] => false
    | _ => String.eqb jws "hdr.pl.sig" || String.eqb jws "hdr.cid.sig"
    end;
  resolveX25519Encrypters recipients r :=
    match recipients with
    | [] => None
    | _ => Some recipients
    end;
  did_jwt_createJWE cleartext encrypters protectedHeader aad :=
    Some "jwe-built-locally";
  encodePayload payload := Some (CID.mk [Byte.x63], [Byte.x62])
|}.

(** A new instance: [new DID({ provider, resolver })]. *)
Definition handle (provider : option DIDProvider) (identifier : option string) : DID :=
  mkDID (mkRPCClient <$> provider) identifier 0%nat.

Definition at_time (now : Z) (d : DID) : World := mkWorld d ∅ [] now 0.

Definition opts (provider : option DIDProvider) : AuthenticateOptions.t :=
  AuthenticateOptions.mk provider (Some "app") None.

(** The decoded [response]. *)
Definition claimed : AuthenticateResponse.t :=
  AuthenticateResponse.mk "did:ex:1" "r0" (Some "app") 1700000000.

Definition verified : VerifyJWSResult.t :=
  VerifyJWSResult.mk "did:ex:1#key-1" (Some response).

(** A new instance, before, at and after the second the response expires. *)
Definition early : World := at_time 1600000000000 (handle None None).
Definition on_expiry : World := at_time 1700000000000 (handle None None).
Definition late : World := at_time 1700000000001 (handle None None).

(** An authenticated instance bound to connection [7]. *)
Definition signed_in : World :=
  at_time 1600000000000 (handle (Some 7%nat) (Some "did:ex:1")).

End Demo.

(** The concrete provider continued: it decrypts the one envelope it knows,
    base64 is the identity on the few texts used, and the objects [1] and
    [2] are a [Resolver] instance and a registry. *)

Module DemoMore.

Definition secret : record := [("msg", JStr "hello")].

#[local] Instance decryption : Decryption := {|
  decodeBase64 s :=
    if String.eqb s "b64:hi" then Some [Byte.x68; Byte.x69] else None;
  prepareCleartext o :=
    match o with
    | [("msg", JStr "hello")] => Some [Byte.x68; Byte.x69]
    | _ => None
    end;
  decodeCleartext b :=
    match b with
    | [Byte.x68; Byte.x69] => Some secret
    | _ => None
    end;
  request_did_decryptJWE conn params :=
    if Nat.eqb conn 7 && String.eqb (DecryptJWEParams.jwe params) "jwe-from-provider"
    then Some "b64:hi" else None
|}.

#[local] Instance objects : Objects := {|
  has_property o k :=
    Nat.eqb o 1 && (String.eqb k "registry" || String.eqb k "cache");
  new_Resolver registry cache := (10 + registry)%nat;
  empty_object := 0%nat;
  empty_object_has_no_property := fun k => eq_refl
|}.

(** The concrete codec again, which also decodes [void] to a header whose
    [kid] is the empty string. *)
#[local] Instance codec : Collaborators := {|
  randomString := @randomString Demo.world;
  fromDagJWS := @fromDagJWS Demo.world;
  base64urlToJSON s :=
    if String.eqb s "void" then Some [("kid", JStr "")]
    else @base64urlToJSON Demo.world s;
  encodeBase64 := @encodeBase64 Demo.world;
  encodeBase64Url := @encodeBase64Url Demo.world;
  request_did_authenticate := @request_did_authenticate Demo.world;
  request_did_createJWS := @request_did_createJWS Demo.world;
  request_did_createJWE := @request_did_createJWE Demo.world;
  Resolver_resolve := @Resolver_resolve Demo.world;
  did_jwt_verifyJWS := @did_jwt_verifyJWS Demo.world;
  resolveX25519Encrypters := @resolveX25519Encrypters Demo.world;
  did_jwt_createJWE := @did_jwt_createJWE Demo.world;
  encodePayload := @encodePayload Demo.world
|}.

(** An instance authenticated earlier as [did:ex:0], after the response of
    the provider has expired. *)
Definition returning : World :=
  Demo.at_time 1700000000001 (Demo.handle (Some 7%nat) (Some "did:ex:0")).

(** The caller holds an options object at [5] that names a [did]. *)
Definition with_object : World :=
  with_heap (<[5%nat := CreateJWSOptions.mk (Some "did:ex:5") None None]> ∅)
    Demo.signed_in.

(** The caller's object at [3] after a first [createJWS] as [did:ex:1], in
    the hands of an instance authenticated as [did:ex:2]. *)
Definition second_identity : World :=
  mkWorld (Demo.handle (Some 7%nat) (Some "did:ex:2"))
    (heap (after (@createJWS Demo.world JNull (Some 3%nat)) Demo.signed_in))
    [] 1600000000000 0.

End DemoMore.

(** ** Provider binding and lifecycle *)

Section Lifecycle.

Lemma setProvider_unbound (w : World) (p : DIDProvider) :
  _client (self w) = None ->
  setProvider p w = (Ok tt, set_client (Some (mkRPCClient p)) w).
Proof. intros Hc. unfold setProvider, bind, get, modify. now rewrite Hc. Qed.

Lemma setProvider_same (w : World) (p : DIDProvider) :
  _client (self w) = Some (mkRPCClient p) ->
  setProvider p w = (Ok tt, w).
Proof.
  intros Hc. unfold setProvider, bind, get, ret. rewrite Hc. simpl.
  now rewrite Nat.eqb_refl.
Qed.

Lemma setProvider_other (w : World) (p q : DIDProvider) :
  _client (self w) = Some (mkRPCClient q) -> q <> p ->
  setProvider p w = (Throw ProviderConflict, w).
Proof.
  intros Hc Hne. unfold setProvider, bind, get, throw. rewrite Hc. simpl.
  apply Nat.eqb_neq in Hne. now rewrite Hne.
Qed.

(** C6.  [setProvider] binds the connection when none is bound, does
    nothing when the same connection is bound already (so a second call
    with the same connection is without effect), and fails with
    [ProviderConflict], the binding and the rest of the world unchanged,
    when another connection is bound. *)
Theorem setProvider_binds_once (w : World) (p : DIDProvider) :
  (_client (self w) = None ->
     outcome (setProvider p) w = Ok tt /\
     _client (self (after (setProvider p) w)) = Some (mkRPCClient p) /\
     _id (self (after (setProvider p) w)) = _id (self w) /\
     (setProvider p ;;; setProvider p) w = setProvider p w) /\
  (_client (self w) = Some (mkRPCClient p) ->
     setProvider p w = (Ok tt, w)) /\
  (forall q : DIDProvider,
     _client (self w) = Some (mkRPCClient q) -> q <> p ->
     setProvider p w = (Throw ProviderConflict, w) /\
     _client (self (after (setProvider p) w)) = Some (mkRPCClient q)).
Proof.
  split; [|split].
  - intros Hc. unfold outcome, after, bind.
    rewrite (setProvider_unbound w p Hc). simpl.
    repeat split; try reflexivity.
    now rewrite setProvider_same.
  - apply setProvider_same.
  - intros q Hc Hne. unfold after.
    rewrite (setProvider_other w p q Hc Hne). auto.
Qed.

(** C8.  In every state [deauthenticate] leaves the instance without a
    provider and without an identifier: [authenticated] then answers
    [false] and [id] throws 'DID is not authenticated'. *)
Theorem deauthenticate_resets (w : World) :
  outcome deauthenticate w = Ok tt /\
  _client (self (after deauthenticate w)) = None /\
  _id (self (after deauthenticate w)) = None /\
  outcome authenticated (after deauthenticate w) = Ok false /\
  outcome id (after deauthenticate w) = Throw NotAuthenticated.
Proof.
  unfold outcome, after, deauthenticate, clearProvider, authenticated, id,
    bind, get, modify, ret, throw.
  destruct (_client (self w)) eqn:Hc; simpl; rewrite ?Hc;
    repeat split; reflexivity.
Qed.

(** C10.  On an authenticated instance [clearProvider] removes the
    provider binding only: [authenticated] still answers [true] and [id]
    still returns the identifier established before. *)
Theorem clearProvider_keeps_identifier (w : World) :
  outcome authenticated w = Ok true ->
  exists i : string,
    outcome id w = Ok i /\
    outcome clearProvider w = Ok tt /\
    _client (self (after clearProvider w)) = None /\
    _id (self (after clearProvider w)) = Some i /\
    outcome authenticated (after clearProvider w) = Ok true /\
    outcome id (after clearProvider w) = Ok i.
Proof.
  unfold outcome, after, clearProvider, authenticated, id,
    bind, get, modify, ret, throw.
  destruct (_id (self w)) as [j|] eqn:Hj; simpl; [|discriminate].
  intros _. exists j.
  destruct (_client (self w)) eqn:Hc; simpl; rewrite ?Hj, ?Hc; simpl;
    repeat split; reflexivity.
Qed.

End Lifecycle.

(** ** Verification of signed envelopes *)

Section Verification.
Context `{Collaborators}.

Ltac run := unfold outcome, after, request, resolve, resolver_resolve, lift,
              bind, get, modify, ret, throw in *; simpl in *.

(** An envelope that has no compact form is refused before anything else
    happens. *)
Lemma verifyJWS_not_compact (w : World) (jws : string + DagJWS.t) :
  compact_of jws = None -> verifyJWS jws w = (Throw CodecFailed, w).
Proof.
  destruct jws as [s|d]; simpl; [discriminate|]. intros Hd.
  unfold verifyJWS. run. now rewrite Hd.
Qed.

(** Once the header carries a non-empty [kid], the resolver is asked for
    exactly that [kid], and the outcome is decided by the resolver and the
    signature check. *)
Lemma verifyJWS_with_kid (w : World) (jws : string + DagJWS.t)
    (compact : string) (header : record) (kid : string) :
  compact_of jws = Some compact ->
  segment 0 compact ≫= base64urlToJSON = Some header ->
  field "kid" header = Some (JStr kid) ->
  kid <> "" ->
  verifyJWS jws w =
    (match Resolver_resolve (_resolver (self w)) (Some kid) with
     | None => Throw ResolutionFailed
     | Some doc =>
         if did_jwt_verifyJWS compact (DIDDocument.publicKey doc)
         then Ok (VerifyJWSResult.mk kid (segment 1 compact ≫= base64urlToJSON))
         else Throw VerificationFailed
     end,
     with_event (Resolved (_resolver (self w)) (Some kid)) w).
Proof.
  intros Hc Hh Hk Hne. unfold verifyJWS.
  assert (Hjws : (match jws with
                  | inl s => ret s
                  | inr d => lift CodecFailed (fromDagJWS d)
                  end) w = (Ok compact, w)).
  { destruct jws as [s|d]; simpl in Hc; run.
    - now injection Hc as ->.
    - now rewrite Hc. }
  unfold bind at 1. rewrite Hjws.
  run. rewrite Hh, Hk.
  destruct kid as [|a kid']; [congruence|].
  destruct (Resolver_resolve (_resolver (self w)) (Some (String a kid')))
    as [doc|]; [|reflexivity].
  destruct (did_jwt_verifyJWS compact (DIDDocument.publicKey doc)); reflexivity.
Qed.

(** [verifyJWS] reads the resolver and nothing else of the instance, and
    changes nothing but the record of calls. *)
Lemma verifyJWS_frame (w : World) (jws : string + DagJWS.t) :
  self (after (verifyJWS jws) w) = self w /\
  heap (after (verifyJWS jws) w) = heap w /\
  Date_now (after (verifyJWS jws) w) = Date_now w /\
  drawn (after (verifyJWS jws) w) = drawn w.
Proof.
  unfold verifyJWS. run.
  repeat (case_match; simpl in *; simplify_eq; try (repeat split; reflexivity)).
Qed.

Lemma verifyJWS_outcome_resolver (w1 w2 : World) (jws : string + DagJWS.t) :
  _resolver (self w1) = _resolver (self w2) ->
  outcome (verifyJWS jws) w1 = outcome (verifyJWS jws) w2.
Proof.
  intros Hr. unfold verifyJWS. run.
  repeat (rewrite ?Hr; case_match; simpl in *; simplify_eq; try reflexivity).
Qed.

(** C4.  When the decoded header has no [kid] property, [verifyJWS] throws
    'No kid found in jws' and the world is exactly as before: no call to
    the resolver (nor any other call) has been recorded. *)
Theorem verifyJWS_missing_kid (w : World) (jws : string + DagJWS.t)
    (compact : string) (header : record) :
  compact_of jws = Some compact ->
  segment 0 compact ≫= base64urlToJSON = Some header ->
  field "kid" header = None ->
  verifyJWS jws w = (Throw MissingKid, w) /\
  trace (after (verifyJWS jws) w) = trace w /\
  (forall r u, Resolved r u ∈ trace (after (verifyJWS jws) w) ->
               Resolved r u ∈ trace w).
Proof.
  intros Hc Hh Hk.
  assert (Hrun : verifyJWS jws w = (Throw MissingKid, w)).
  { unfold verifyJWS.
    destruct jws as [s|d]; simpl in Hc; run.
    - injection Hc as ->. now rewrite Hh, Hk.
    - rewrite Hc. simpl. now rewrite Hh, Hk. }
  unfold after. rewrite Hrun. simpl. auto.
Qed.

(** C7.  When the signature verifies, a payload segment that does not
    decode does not make [verifyJWS] fail: the result is [{ kid }] with
    the payload absent; a payload segment that decodes is returned next to
    the [kid]. *)
Theorem verifyJWS_payload_optional (w : World) (jws : string + DagJWS.t)
    (compact : string) (header : record) (kid : string) (doc : DIDDocument.t) :
  compact_of jws = Some compact ->
  segment 0 compact ≫= base64urlToJSON = Some header ->
  field "kid" header = Some (JStr kid) ->
  kid <> "" ->
  Resolver_resolve (_resolver (self w)) (Some kid) = Some doc ->
  did_jwt_verifyJWS compact (DIDDocument.publicKey doc) = true ->
  (segment 1 compact ≫= base64urlToJSON = None ->
     outcome (verifyJWS jws) w = Ok (VerifyJWSResult.mk kid None)) /\
  (forall payload : record,
     segment 1 compact ≫= base64urlToJSON = Some payload ->
     outcome (verifyJWS jws) w = Ok (VerifyJWSResult.mk kid (Some payload))).
Proof.
  intros Hc Hh Hk Hne Hr Hv. unfold outcome.
  rewrite (verifyJWS_with_kid w jws compact header kid Hc Hh Hk Hne), Hr, Hv.
  simpl. split; [intros -> | intros payload ->]; reflexivity.
Qed.

End Verification.

(** ** The authentication handshake *)

Section Authentication.
Context `{Collaborators}.

(** Step 1: the explicit provider, if any, is bound first. *)
Lemma authenticate_binding (w : World) (opts : AuthenticateOptions.t)
    (conn : DIDProvider) :
  provider_in_use opts (self w) = Some conn ->
  exists w1 : World,
    match AuthenticateOptions.provider opts with
    | Some provider => setProvider provider
    | None => ret tt
    end w = (Ok tt, w1) /\
    _client (self w1) = Some (mkRPCClient conn) /\
    same_but_binding w w1 /\ drawn w1 = drawn w /\ trace w1 = trace w.
Proof.
  unfold provider_in_use, same_but_binding.
  destruct (AuthenticateOptions.provider opts) as [p|];
    destruct (_client (self w)) as [[c]|] eqn:Hc; simpl; try discriminate.
  - destruct (Nat.eqb c p) eqn:Hcp; [|discriminate].
    apply Nat.eqb_eq in Hcp. subst c. intros [= <-].
    exists w. rewrite setProvider_same by assumption. auto 10.
  - intros [= <-]. exists (set_client (Some (mkRPCClient p)) w).
    rewrite setProvider_unbound by assumption. simpl. auto 10.
  - intros [= <-]. exists w. unfold ret. auto 10.
Qed.

(** Steps 1 to 5 in one equation: once the provider has answered, the
    envelope has been verified and its payload decoded, the outcome of
    [authenticate] is the first violated check, or the claimed identifier
    when there is none; the identifier is written in the latter case
    only. *)
Lemma authenticate_after_verification (w : World) (opts : AuthenticateOptions.t)
    (conn : DIDProvider) (jws : DagJWS.t) (vr : VerifyJWSResult.t)
    (payload : AuthenticateResponse.t) :
  provider_in_use opts (self w) = Some conn ->
  request_did_authenticate conn
    (AuthenticateParams.mk (randomString (drawn w))
       (AuthenticateOptions.aud opts) (AuthenticateOptions.paths opts))
    = Some jws ->
  outcome (verifyJWS (inr jws)) w = Ok vr ->
  base64urlToJSON (DagJWS.payload jws) ≫= as_AuthenticateResponse
    = Some payload ->
  exists w3 : World,
    same_but_binding w w3 /\
    _client (self w3) = Some (mkRPCClient conn) /\
    authenticate opts w =
      match first_violation (VerifyJWSResult.kid vr) (randomString (drawn w))
              (AuthenticateOptions.aud opts) (Date_now w) payload with
      | Some failure => (Throw (InvalidAuthenticationResponse failure), w3)
      | None =>
          (Ok (AuthenticateResponse.did payload),
           set_id (Some (AuthenticateResponse.did payload)) w3)
      end.
Proof.
  intros Hp Hreq Hver Hdec.
  destruct (authenticate_binding w opts conn Hp)
    as (w1 & Hbind & Hclient & (Hid & Hres & Hheap & Hnow) & Hdrawn & _).
  set (w2 := with_event (Requested conn "did_authenticate") (with_draw w1)).
  destruct (verifyJWS (inr jws) w2) as [res w3] eqn:Hrun.
  assert (Hres3 : res = Ok vr).
  { rewrite <- Hver.
    rewrite (verifyJWS_outcome_resolver w w2 (inr jws)) by (symmetry; exact Hres).
    unfold outcome. now rewrite Hrun. }
  destruct (verifyJWS_frame w2 (inr jws)) as (Hself & Hheap3 & Hnow3 & _).
  unfold after in Hself, Hheap3, Hnow3. rewrite Hrun in Hself, Hheap3, Hnow3.
  simpl in Hself, Hheap3, Hnow3. subst res.
  destruct (base64urlToJSON (DagJWS.payload jws)) as [json|] eqn:Hjson;
    [|discriminate]. simpl in Hdec.
  exists w3. split; [|split].
  - unfold same_but_binding. rewrite Hself, Hheap3, Hnow3. auto.
  - now rewrite Hself.
  - unfold authenticate. unfold bind at 1. rewrite Hbind.
    unfold bind at 1. unfold get at 1. rewrite Hclient.
    unfold bind at 1. unfold modify at 1.
    unfold bind at 1. unfold request, bind at 1, modify at 1.
    simpl connection. unfold lift at 1. rewrite Hdrawn, Hreq.
    unfold ret at 1. fold w2.
    unfold bind at 1. rewrite Hrun.
    unfold bind at 1. rewrite Hjson. unfold lift at 1, ret at 1.
    unfold bind at 1. rewrite Hdec. unfold lift at 1, ret at 1.
    unfold first_violation.
    destruct (negb (includes _ _)); [reflexivity|].
    destruct (negb (String.eqb _ _)); [reflexivity|].
    destruct (strict_neq _ _); [reflexivity|].
    unfold bind, get, ret, modify, throw, lift. simpl.
    rewrite Hnow3, Hnow.
    destruct (_ <? _); reflexivity.
Qed.

Lemma strict_neq_false (a b : option string) :
  strict_neq a b = false <-> a = b.
Proof.
  destruct a as [x|], b as [y|]; simpl; split; try congruence.
  - intros Hxy. apply negb_false_iff, String.eqb_eq in Hxy. now subst.
  - intros [= ->]. apply negb_false_iff, String.eqb_refl.
Qed.

(** No check is violated exactly when the [kid] contains the claimed
    identifier, nonce and audience are the requested ones, and the expiry
    is not before the clock. *)
Lemma first_violation_none (kid nonce : string) (aud : option string) (now : Z)
    (payload : AuthenticateResponse.t) :
  first_violation kid nonce aud now payload = None <->
  includes kid (AuthenticateResponse.did payload) = true /\
  AuthenticateResponse.nonce payload = nonce /\
  AuthenticateResponse.aud payload = aud /\
  now <= AuthenticateResponse.exp payload * 1000.
Proof.
  unfold first_violation.
  destruct (includes kid _); simpl; [|intuition discriminate].
  destruct (String.eqb_spec (AuthenticateResponse.nonce payload) nonce);
    simpl; [|intuition discriminate].
  destruct (strict_neq _ aud) eqn:Haud.
  - split; [discriminate|]. intros (_ & _ & Ha & _).
    apply strict_neq_false in Ha. congruence.
  - apply strict_neq_false in Haud.
    destruct (Z.ltb_spec (AuthenticateResponse.exp payload * 1000) now);
      split; try discriminate; intuition lia.
Qed.

(** C2.  A response whose signature verifies, whose nonce and audience
    are those of the challenge (an absent audience matching an absent
    one), whose [kid] contains the claimed identifier and whose expiry is
    in the future makes [authenticate] return the claimed identifier and
    store it, so that [id] returns it afterwards. *)
Theorem authenticate_accepts_valid_response (w : World)
    (opts : AuthenticateOptions.t) (conn : DIDProvider) (jws : DagJWS.t)
    (vr : VerifyJWSResult.t) (payload : AuthenticateResponse.t) :
  provider_in_use opts (self w) = Some conn ->
  request_did_authenticate conn
    (AuthenticateParams.mk (randomString (drawn w))
       (AuthenticateOptions.aud opts) (AuthenticateOptions.paths opts))
    = Some jws ->
  outcome (verifyJWS (inr jws)) w = Ok vr ->
  base64urlToJSON (DagJWS.payload jws) ≫= as_AuthenticateResponse
    = Some payload ->
  includes (VerifyJWSResult.kid vr) (AuthenticateResponse.did payload) = true ->
  AuthenticateResponse.nonce payload = randomString (drawn w) ->
  AuthenticateResponse.aud payload = AuthenticateOptions.aud opts ->
  Date_now w < AuthenticateResponse.exp payload * 1000 ->
  outcome (authenticate opts) w = Ok (AuthenticateResponse.did payload) /\
  _id (self (after (authenticate opts) w))
    = Some (AuthenticateResponse.did payload) /\
  outcome id (after (authenticate opts) w)
    = Ok (AuthenticateResponse.did payload).
Proof.
  intros Hp Hreq Hver Hdec Hkid Hnonce Haud Hexp.
  destruct (authenticate_after_verification w opts conn jws vr payload
              Hp Hreq Hver Hdec) as (w3 & _ & _ & Hrun).
  assert (Hnone : first_violation (VerifyJWSResult.kid vr)
                    (randomString (drawn w)) (AuthenticateOptions.aud opts)
                    (Date_now w) payload = None)
    by (apply first_violation_none; intuition lia).
  rewrite Hnone in Hrun. unfold outcome, after. rewrite Hrun.
  repeat split; reflexivity.
Qed.

(** C1.  On an unauthenticated instance, a verified response that fails a
    check (its [kid] does not contain the claimed identifier, its nonce or
    its audience is not the requested one, or its expiry is in the past)
    makes [authenticate] throw 'Invalid authencation response, ...'; the
    identifier stays unset and [authenticated] still answers [false].
    Identifier, resolver, heap and clock are as before the call: what the
    call leaves behind is the binding of the provider it was given and the
    record of the calls it made. *)
Theorem authenticate_rejects_invalid_response (w : World)
    (opts : AuthenticateOptions.t) (conn : DIDProvider) (jws : DagJWS.t)
    (vr : VerifyJWSResult.t) (payload : AuthenticateResponse.t) :
  _id (self w) = None ->
  provider_in_use opts (self w) = Some conn ->
  request_did_authenticate conn
    (AuthenticateParams.mk (randomString (drawn w))
       (AuthenticateOptions.aud opts) (AuthenticateOptions.paths opts))
    = Some jws ->
  outcome (verifyJWS (inr jws)) w = Ok vr ->
  base64urlToJSON (DagJWS.payload jws) ≫= as_AuthenticateResponse
    = Some payload ->
  includes (VerifyJWSResult.kid vr) (AuthenticateResponse.did payload) = false
  \/ AuthenticateResponse.nonce payload <> randomString (drawn w)
  \/ AuthenticateResponse.aud payload <> AuthenticateOptions.aud opts
  \/ AuthenticateResponse.exp payload * 1000 < Date_now w ->
  exists reason : AuthFailure,
    outcome (authenticate opts) w
      = Throw (InvalidAuthenticationResponse reason) /\
    _id (self (after (authenticate opts) w)) = None /\
    outcome authenticated (after (authenticate opts) w) = Ok false /\
    same_but_binding w (after (authenticate opts) w).
Proof.
  intros Hunset Hp Hreq Hver Hdec Hbad.
  destruct (authenticate_after_verification w opts conn jws vr payload
              Hp Hreq Hver Hdec) as (w3 & Hsame & _ & Hrun).
  pose proof Hsame as (Hid & _).
  destruct (first_violation (VerifyJWSResult.kid vr) (randomString (drawn w))
              (AuthenticateOptions.aud opts) (Date_now w) payload)
    as [reason|] eqn:Hfirst.
  - exists reason. unfold outcome, after. rewrite Hrun. simpl.
    unfold authenticated, bind, get, ret. simpl.
    rewrite Hid, Hunset. auto.
  - apply first_violation_none in Hfirst.
    destruct Hfirst as (Hk & Hn & Ha & He).
    destruct Hbad as [Hb|[Hb|[Hb|Hb]]]; [congruence|contradiction|contradiction|lia].
Qed.

(** On any instance a failed [authenticate] leaves the identifier as it
    was, whatever made it fail after the provider answered. *)
Lemma authenticate_failure_keeps_identifier (w : World)
    (opts : AuthenticateOptions.t) (conn : DIDProvider) (jws : DagJWS.t)
    (vr : VerifyJWSResult.t) (payload : AuthenticateResponse.t)
    (reason : AuthFailure) :
  provider_in_use opts (self w) = Some conn ->
  request_did_authenticate conn
    (AuthenticateParams.mk (randomString (drawn w))
       (AuthenticateOptions.aud opts) (AuthenticateOptions.paths opts))
    = Some jws ->
  outcome (verifyJWS (inr jws)) w = Ok vr ->
  base64urlToJSON (DagJWS.payload jws) ≫= as_AuthenticateResponse
    = Some payload ->
  outcome (authenticate opts) w = Throw (InvalidAuthenticationResponse reason) ->
  same_but_binding w (after (authenticate opts) w) /\
  _client (self (after (authenticate opts) w)) = Some (mkRPCClient conn).
Proof.
  intros Hp Hreq Hver Hdec.
  destruct (authenticate_after_verification w opts conn jws vr payload
              Hp Hreq Hver Hdec) as (w3 & Hsame & Hclient & Hrun).
  unfold outcome, after. rewrite Hrun.
  destruct (first_violation _ _ _ _ _); simpl; [auto|discriminate].
Qed.

(** C3, as the code has it.  A verified response whose expiry is strictly
    before the clock is rejected with 'Invalid authencation response, ...'
    (with reason [Expired] when the other checks pass); a response whose
    expiry equals the clock and which passes the other checks is
    accepted. *)
Theorem authenticate_expiry_boundary (w : World)
    (opts : AuthenticateOptions.t) (conn : DIDProvider) (jws : DagJWS.t)
    (vr : VerifyJWSResult.t) (payload : AuthenticateResponse.t) :
  provider_in_use opts (self w) = Some conn ->
  request_did_authenticate conn
    (AuthenticateParams.mk (randomString (drawn w))
       (AuthenticateOptions.aud opts) (AuthenticateOptions.paths opts))
    = Some jws ->
  outcome (verifyJWS (inr jws)) w = Ok vr ->
  base64urlToJSON (DagJWS.payload jws) ≫= as_AuthenticateResponse
    = Some payload ->
  (AuthenticateResponse.exp payload * 1000 < Date_now w ->
     exists reason : AuthFailure,
       outcome (authenticate opts) w
         = Throw (InvalidAuthenticationResponse reason) /\
       (other_checks_pass (VerifyJWSResult.kid vr) (randomString (drawn w))
          (AuthenticateOptions.aud opts) payload ->
        reason = Expired)) /\
  (AuthenticateResponse.exp payload * 1000 = Date_now w ->
     other_checks_pass (VerifyJWSResult.kid vr) (randomString (drawn w))
       (AuthenticateOptions.aud opts) payload ->
     outcome (authenticate opts) w = Ok (AuthenticateResponse.did payload)).
Proof.
  intros Hp Hreq Hver Hdec.
  destruct (authenticate_after_verification w opts conn jws vr payload
              Hp Hreq Hver Hdec) as (w3 & _ & _ & Hrun).
  unfold outcome. rewrite Hrun. clear Hrun. split.
  - intros Hexp.
    destruct (first_violation (VerifyJWSResult.kid vr) (randomString (drawn w))
                (AuthenticateOptions.aud opts) (Date_now w) payload)
      as [reason|] eqn:Hfirst.
    + exists reason. split; [reflexivity|].
      intros (Hk & Hn & Ha). revert Hfirst. unfold first_violation.
      rewrite Hk, Hn, String.eqb_refl. simpl.
      apply strict_neq_false in Ha. rewrite Ha.
      destruct (_ <? _); congruence.
    + apply first_violation_none in Hfirst. lia.
  - intros Heq (Hk & Hn & Ha).
    assert (Hnone : first_violation (VerifyJWSResult.kid vr)
                      (randomString (drawn w)) (AuthenticateOptions.aud opts)
                      (Date_now w) payload = None)
      by (apply first_violation_none; intuition lia).
    now rewrite Hnone.
Qed.

End Authentication.

(** ** Signing: the caller's options object *)

Section Signing.
Context `{Collaborators}.

Lemma deref_insert (h : gmap nat CreateJWSOptions.t) (l : loc)
    (o : CreateJWSOptions.t) :
  deref (<[l := o]> h) l = o.
Proof. unfold deref. now rewrite lookup_insert_eq. Qed.

(** [createJWS] writes at most the [did] property of the options object
    it is given, and touches no other object. *)
Lemma createJWS_heap (w : World) (payload : json) (l : loc) :
  CreateJWSOptions.linkedBlock
    (deref (heap (after (createJWS payload (Some l)) w)) l)
    = CreateJWSOptions.linkedBlock (deref (heap w) l) /\
  CreateJWSOptions.protected
    (deref (heap (after (createJWS payload (Some l)) w)) l)
    = CreateJWSOptions.protected (deref (heap w) l) /\
  (forall l' : loc, l' <> l ->
     heap (after (createJWS payload (Some l)) w) !! l' = heap w !! l').
Proof.
  unfold after, createJWS, options_or_new, assign, request, lift,
    bind, get, modify, ret, throw. simpl.
  destruct (_client (self w)) as [client|]; simpl; [|auto].
  destruct (_id (self w)) as [i|]; simpl; [|auto].
  destruct (falsy _); simpl.
  - destruct (request_did_createJWS _ _); simpl;
      rewrite deref_insert; simpl; repeat split; try reflexivity;
      intros l' Hne; now rewrite lookup_insert_ne.
  - destruct (request_did_createJWS _ _); simpl; auto.
Qed.

(** C9.  Whenever the payload encodes, a call to [createDagJWS] with the
    caller's options object leaves that very object with [linkedBlock]
    set to the base64 form of the linked block, whether the call then
    returns or throws; the caller's other objects are as before. *)
Theorem createDagJWS_writes_caller_options (w : World) (payload : record)
    (l : loc) (cid : CID.t) (linkedBlock : bytes) :
  encodePayload payload = Some (cid, linkedBlock) ->
  CreateJWSOptions.linkedBlock
    (deref (heap (after (createDagJWS payload (Some l)) w)) l)
    = Some (encodeBase64 linkedBlock) /\
  (forall l' : loc, l' <> l ->
     heap (after (createDagJWS payload (Some l)) w) !! l' = heap w !! l').
Proof.
  intros Henc.
  set (w1 := with_heap
               (<[l := set_linkedBlock (encodeBase64 linkedBlock)
                         (deref (heap w) l)]> (heap w)) w).
  destruct (createJWS_heap w1 (JStr (encodeBase64Url (CID.bytes cid))) l)
    as (Hlb & _ & Hother).
  assert (Hafter : heap (after (createDagJWS payload (Some l)) w)
                   = heap (after (createJWS
                                    (JStr (encodeBase64Url (CID.bytes cid)))
                                    (Some l)) w1)).
  { unfold after at 1, createDagJWS, options_or_new.
    unfold bind at 1. unfold ret at 1.
    unfold bind at 1. rewrite Henc. unfold lift at 1, ret at 1.
    unfold bind at 1. unfold assign at 1, modify at 1. fold w1.
    unfold bind at 1. unfold after.
    destruct (createJWS _ _ w1) as [[jws|e] w2]; reflexivity. }
  rewrite Hafter. split.
  - rewrite Hlb. unfold w1. simpl. now rewrite deref_insert.
  - intros l' Hne. rewrite (Hother l' Hne). unfold w1. simpl.
    now rewrite lookup_insert_ne.
Qed.

(** Without an encoding of the payload there is no linked block, and the
    caller's object is not written. *)
Lemma createDagJWS_unencodable (w : World) (payload : record) (l : loc) :
  encodePayload payload = None ->
  createDagJWS payload (Some l) w = (Throw CodecFailed, w).
Proof.
  intros Henc. unfold createDagJWS, options_or_new, lift, bind, ret, throw.
  now rewrite Henc.
Qed.

End Signing.

(** ** Encryption: provider first, local encrypters as fallback *)

Section Encryption.
Context `{Collaborators}.

(** X14.  When the provider's [did_createJWE] request fails, [createJWE]
    answers with what [resolveX25519Encrypters] followed by [did-jwt]'s
    [createJWE] gives for the same cleartext, all the recipients, the same
    protected header and the same additional data; a failure there is the
    failure of the call. *)
Lemma createJWE_falls_back_when_request_fails (w : World) (cleartext : bytes)
    (recipients : list string) (options : CreateJWEOptions.t)
    (client : RPCClient) (didDoc : DIDDocument.t) (key0 : PublicKey.t)
    (keys : list string) :
  _client (self w) = Some client ->
  Resolver_resolve (_resolver (self w)) (recipients !! 0%nat) = Some didDoc ->
  DIDDocument.publicKey didDoc !! 0%nat = Some key0 ->
  keys = (if falsy (PublicKey.publicKeyHex key0) then []
          else option_list (PublicKey.publicKeyHex key0)) ->
  request_did_createJWE (connection client)
    (CreateJWEParams.mk (CreateJWEOptions.protectedHeader options)
       (CreateJWEOptions.aad options) cleartext keys) = None ->
  outcome (createJWE cleartext recipients options) w =
    match resolveX25519Encrypters recipients (_resolver (self w)) with
    | None => Throw EncryptionFailed
    | Some encrypters =>
        match did_jwt_createJWE cleartext encrypters
                (CreateJWEOptions.protectedHeader options)
                (CreateJWEOptions.aad options) with
        | None => Throw EncryptionFailed
        | Some jwe => Ok jwe
        end
    end /\
  ResolvedEncrypters (_resolver (self w)) recipients
    ∈ trace (after (createJWE cleartext recipients options) w).
Proof.
  intros Hc Hdoc Hkey -> Hreq.
  unfold outcome, after, createJWE, try_catch, request, resolver_resolve, lift,
    bind, get, modify, ret, throw. simpl.
  rewrite Hc, Hdoc. simpl. rewrite Hkey. simpl.
  replace (if falsy (PublicKey.publicKeyHex key0) then []
           else match PublicKey.publicKeyHex key0 with
                | Some hex => [hex]
                | None => []
                end)
    with (if falsy (PublicKey.publicKeyHex key0) then []
          else option_list (PublicKey.publicKeyHex key0))
    by (destruct (PublicKey.publicKeyHex key0); reflexivity).
  rewrite Hreq. simpl.
  destruct (resolveX25519Encrypters recipients (_resolver (self w)))
    as [encrypters|]; simpl.
  - destruct (did_jwt_createJWE _ _ _ _); simpl;
      (split; [reflexivity|]); apply list_elem_of_In, in_or_app; right; now left.
  - split; [reflexivity|]. apply list_elem_of_In, in_or_app; right; now left.
Qed.

(** A first recipient whose document lists no public key at all: reading
    [publicKey[0].publicKeyHex] throws outside the [try], and neither the
    provider nor the local encrypters are reached. *)
Lemma createJWE_document_without_keys (w : World) (cleartext : bytes)
    (recipients : list string) (options : CreateJWEOptions.t)
    (client : RPCClient) (didDoc : DIDDocument.t) :
  _client (self w) = Some client ->
  Resolver_resolve (_resolver (self w)) (recipients !! 0%nat) = Some didDoc ->
  DIDDocument.publicKey didDoc = [] ->
  createJWE cleartext recipients options w =
    (Throw TypeError,
     with_event (Resolved (_resolver (self w)) (recipients !! 0%nat)) w).
Proof.
  intros Hc Hdoc Hkeys.
  unfold createJWE, try_catch, request, resolver_resolve, lift,
    bind, get, modify, ret, throw. simpl.
  rewrite Hc, Hdoc. simpl. now rewrite Hkeys.
Qed.

End Encryption.

(** ** The theorems at work on the concrete provider *)

Section Examples.
#[local] Existing Instance Demo.world.

Lemma setProvider_binds_once_witness :
  setProvider 7%nat Demo.signed_in = (Ok tt, Demo.signed_in) /\
  setProvider 8%nat Demo.signed_in = (Throw ProviderConflict, Demo.signed_in) /\
  _client (self (after (setProvider 7%nat) Demo.early))
    = Some (mkRPCClient 7%nat).
Proof.
  destruct (setProvider_binds_once Demo.signed_in 7%nat) as (_ & Hsame & _).
  destruct (setProvider_binds_once Demo.signed_in 8%nat) as (_ & _ & Hother).
  destruct (setProvider_binds_once Demo.early 7%nat) as (Hnew & _ & _).
  split; [|split].
  - apply Hsame. reflexivity.
  - apply (Hother 7%nat); [reflexivity|lia].
  - apply Hnew. reflexivity.
Defined.

Lemma clearProvider_keeps_identifier_witness :
  exists i : string,
    outcome id Demo.signed_in = Ok i /\
    outcome clearProvider Demo.signed_in = Ok tt /\
    _client (self (after clearProvider Demo.signed_in)) = None /\
    _id (self (after clearProvider Demo.signed_in)) = Some i /\
    outcome authenticated (after clearProvider Demo.signed_in) = Ok true /\
    outcome id (after clearProvider Demo.signed_in) = Ok i.
Proof. apply (clearProvider_keeps_identifier Demo.signed_in). reflexivity. Defined.

Lemma verifyJWS_missing_kid_witness :
  verifyJWS (inl "anon.pl.sig") Demo.early = (Throw MissingKid, Demo.early) /\
  trace (after (verifyJWS (inl "anon.pl.sig")) Demo.early) = trace Demo.early /\
  (forall r u,
     Resolved r u ∈ trace (after (verifyJWS (inl "anon.pl.sig")) Demo.early) ->
     Resolved r u ∈ trace Demo.early).
Proof.
  apply (verifyJWS_missing_kid Demo.early (inl "anon.pl.sig") "anon.pl.sig"
           Demo.anonymous_header); reflexivity.
Defined.

Lemma verifyJWS_payload_optional_witness :
  outcome (verifyJWS (inl "hdr.cid.sig")) Demo.early
    = Ok (VerifyJWSResult.mk "did:ex:1#key-1" None) /\
  outcome (verifyJWS (inr Demo.envelope)) Demo.early = Ok Demo.verified.
Proof.
  split.
  - apply (verifyJWS_payload_optional Demo.early (inl "hdr.cid.sig")
             "hdr.cid.sig" Demo.header "did:ex:1#key-1" Demo.keyed_doc);
      first [reflexivity | discriminate].
  - apply (verifyJWS_payload_optional Demo.early (inr Demo.envelope)
             "hdr.pl.sig" Demo.header "did:ex:1#key-1" Demo.keyed_doc);
      first [reflexivity | discriminate].
Defined.

Lemma authenticate_accepts_valid_response_witness :
  outcome (authenticate (Demo.opts (Some 7%nat))) Demo.early = Ok "did:ex:1" /\
  _id (self (after (authenticate (Demo.opts (Some 7%nat))) Demo.early))
    = Some "did:ex:1" /\
  outcome id (after (authenticate (Demo.opts (Some 7%nat))) Demo.early)
    = Ok "did:ex:1".
Proof.
  apply (authenticate_accepts_valid_response Demo.early (Demo.opts (Some 7%nat))
           7%nat Demo.envelope Demo.verified Demo.claimed); reflexivity.
Defined.

Lemma authenticate_rejects_invalid_response_witness :
  exists reason : AuthFailure,
    outcome (authenticate (Demo.opts (Some 7%nat))) Demo.late
      = Throw (InvalidAuthenticationResponse reason) /\
    _id (self (after (authenticate (Demo.opts (Some 7%nat))) Demo.late)) = None /\
    outcome authenticated
      (after (authenticate (Demo.opts (Some 7%nat))) Demo.late) = Ok false /\
    same_but_binding Demo.late
      (after (authenticate (Demo.opts (Some 7%nat))) Demo.late).
Proof.
  apply (authenticate_rejects_invalid_response Demo.late (Demo.opts (Some 7%nat))
           7%nat Demo.envelope Demo.verified Demo.claimed); try reflexivity.
  right; right; right. reflexivity.
Defined.

(** The claim of C3 fails on the second of expiry: the response of the
    concrete provider expires at [1700000000], the clock reads
    [1700000000000] ms, the expiry is not strictly greater than the time in
    seconds, and [authenticate] returns the identifier instead of
    throwing. *)
Lemma authenticate_accepts_expiry_equal_to_clock :
  base64urlToJSON (DagJWS.payload Demo.envelope) ≫= as_AuthenticateResponse
    = Some Demo.claimed /\
  AuthenticateResponse.exp Demo.claimed * 1000 = Date_now Demo.on_expiry /\
  ~ Date_now Demo.on_expiry < AuthenticateResponse.exp Demo.claimed * 1000 /\
  outcome (authenticate (Demo.opts (Some 7%nat))) Demo.on_expiry
    = Ok "did:ex:1" /\
  ~ (exists reason : AuthFailure,
       outcome (authenticate (Demo.opts (Some 7%nat))) Demo.on_expiry
         = Throw (InvalidAuthenticationResponse reason)).
Proof.
  repeat split; try reflexivity.
  - vm_compute. discriminate.
  - intros [reason Hthrow]. vm_compute in Hthrow. discriminate.
Qed.

Lemma authenticate_expiry_boundary_witness :
  outcome (authenticate (Demo.opts (Some 7%nat))) Demo.late
    = Throw (InvalidAuthenticationResponse Expired) /\
  outcome (authenticate (Demo.opts (Some 7%nat))) Demo.on_expiry
    = Ok (AuthenticateResponse.did Demo.claimed).
Proof.
  assert (Hother : other_checks_pass (VerifyJWSResult.kid Demo.verified)
                     (randomString 0) (Some "app") Demo.claimed)
    by (repeat split; reflexivity).
  split.
  - destruct (authenticate_expiry_boundary Demo.late (Demo.opts (Some 7%nat))
                7%nat Demo.envelope Demo.verified Demo.claimed)
      as (Hpast & _); [reflexivity..|].
    destruct Hpast as (reason & Hout & Hreason); [reflexivity|].
    rewrite Hout, (Hreason Hother). reflexivity.
  - destruct (authenticate_expiry_boundary Demo.on_expiry (Demo.opts (Some 7%nat))
                7%nat Demo.envelope Demo.verified Demo.claimed)
      as (_ & Hequal); [reflexivity..|].
    apply Hequal; [reflexivity|exact Hother].
Defined.

Lemma createDagJWS_writes_caller_options_witness :
  CreateJWSOptions.linkedBlock
    (deref (heap (after (createDagJWS [] (Some 3%nat)) Demo.signed_in)) 3%nat)
    = Some "b64:b" /\
  (forall l' : loc, l' <> 3%nat ->
     heap (after (createDagJWS [] (Some 3%nat)) Demo.signed_in) !! l'
       = heap Demo.signed_in !! l').
Proof.
  exact (createDagJWS_writes_caller_options Demo.signed_in [] 3%nat
           (CID.mk [Byte.x63]) [Byte.x62] eq_refl).
Defined.

(** C5 at a first recipient whose document lists no public key: the local
    encrypters would produce an envelope for these recipients, the sibling
    document whose first key merely has no [publicKeyHex] does reach them,
    and yet the call ends in a [TypeError]. *)
Theorem createJWE_no_fallback_for_document_without_keys :
  Resolver_resolve 0%nat (Some "did:ex:3") = Some (DIDDocument.mk []) /\
  resolveX25519Encrypters ["did:ex:3"; "did:ex:1"] 0%nat
    ≫= (fun encrypters => did_jwt_createJWE [] encrypters None None)
    = Some "jwe-built-locally" /\
  outcome (createJWE [] ["did:ex:3"; "did:ex:1"] CreateJWEOptions.empty)
    Demo.signed_in = Throw TypeError /\
  outcome (createJWE [] ["did:ex:2"; "did:ex:1"] CreateJWEOptions.empty)
    Demo.signed_in = Ok "jwe-built-locally".
Proof. repeat split; reflexivity. Qed.

Lemma createJWE_falls_back_example :
  outcome (createJWE [] ["did:ex:2"; "did:ex:1"] CreateJWEOptions.empty)
    Demo.signed_in = Ok "jwe-built-locally" /\
  ResolvedEncrypters 0%nat ["did:ex:2"; "did:ex:1"]
    ∈ trace (after (createJWE [] ["did:ex:2"; "did:ex:1"] CreateJWEOptions.empty)
               Demo.signed_in).
Proof.
  assert (Hfallback := createJWE_falls_back_when_request_fails Demo.signed_in []
           ["did:ex:2"; "did:ex:1"] CreateJWEOptions.empty (mkRPCClient 7%nat)
           Demo.keyless_doc (PublicKey.mk "did:ex:2#key-1" None) []).
  exact (Hfallback eq_refl eq_refl eq_refl eq_refl eq_refl).
Defined.

End Examples.

(** ** More on the handshake: guards, soundness, replay *)

Section Handshake.
Context `{Collaborators}.

(** The whole of [authenticate] in one equation, for a call that has a
    provider to talk to. *)
Lemma authenticate_run (w : World) (opts : AuthenticateOptions.t)
    (conn : DIDProvider) :
  provider_in_use opts (self w) = Some conn ->
  exists w1 : World,
    _client (self w1) = Some (mkRPCClient conn) /\
    same_but_binding w w1 /\ drawn w1 = drawn w /\ trace w1 = trace w /\
    authenticate opts w =
      let w2 := with_event (Requested conn "did_authenticate") (with_draw w1) in
      match request_did_authenticate conn
              (AuthenticateParams.mk (randomString (drawn w))
                 (AuthenticateOptions.aud opts) (AuthenticateOptions.paths opts))
      with
      | None => (Throw TransportFailed, w2)
      | Some jws =>
          match verifyJWS (inr jws) w2 with
          | (Throw e, w3) => (Throw e, w3)
          | (Ok vr, w3) =>
              match base64urlToJSON (DagJWS.payload jws) with
              | None => (Throw CodecFailed, w3)
              | Some decoded =>
                  match as_AuthenticateResponse decoded with
                  | None => (Throw IllTyped, w3)
                  | Some payload =>
                      match first_violation (VerifyJWSResult.kid vr)
                              (randomString (drawn w))
                              (AuthenticateOptions.aud opts) (Date_now w3)
                              payload with
                      | Some failure =>
                          (Throw (InvalidAuthenticationResponse failure), w3)
                      | None =>
                          (Ok (AuthenticateResponse.did payload),
                           set_id (Some (AuthenticateResponse.did payload)) w3)
                      end
                  end
              end
          end
      end.
Proof.
  intros Hp.
  destruct (authenticate_binding w opts conn Hp)
    as (w1 & Hbind & Hclient & Hsame & Hdrawn & Htrace).
  exists w1. repeat (split; [assumption|]).
  unfold authenticate. unfold bind at 1. rewrite Hbind.
  unfold bind at 1. unfold get at 1. rewrite Hclient.
  unfold bind at 1. unfold modify at 1.
  unfold bind at 1. unfold request, bind at 1, modify at 1.
  simpl connection. unfold lift at 1. rewrite Hdrawn.
  cbv zeta.
  destruct (request_did_authenticate conn _) as [jws|]; [|reflexivity].
  unfold ret at 1.
  unfold bind at 1.
  destruct (verifyJWS (inr jws) _) as [[vr|e] w3]; [|reflexivity].
  unfold bind at 1. unfold lift at 1.
  destruct (base64urlToJSON (DagJWS.payload jws)) as [decoded|]; [|reflexivity].
  unfold ret at 1. unfold bind at 1. unfold lift at 1.
  destruct (as_AuthenticateResponse decoded) as [payload|]; [|reflexivity].
  unfold ret at 1. unfold first_violation.
  destruct (negb (includes _ _)); [reflexivity|].
  destruct (negb (String.eqb _ _)); [reflexivity|].
  destruct (strict_neq _ _); [reflexivity|].
  unfold bind, get, ret, modify, throw, lift. simpl.
  destruct (_ <? _); reflexivity.
Qed.

(** Without a provider to talk to, [authenticate] stops at its first two
    statements. *)
Lemma authenticate_nobody_to_ask (w : World) (opts : AuthenticateOptions.t) :
  provider_in_use opts (self w) = None ->
  authenticate opts w
    = (Throw (match AuthenticateOptions.provider opts with
              | Some _ => ProviderConflict
              | None => NoProvider
              end), w).
Proof.
  unfold provider_in_use, authenticate, setProvider, bind, get, ret, throw.
  destruct (AuthenticateOptions.provider opts) as [p|];
    destruct (_client (self w)) as [[c]|] eqn:Hc; simpl; try discriminate.
  - destruct (Nat.eqb c p); [discriminate|reflexivity].
  - rewrite ?Hc. reflexivity.
Qed.

(** X1.  [authenticate] given a provider other than the bound one throws
    'A different provider is already set' before a nonce is drawn or a
    request is sent; binding, identifier and the whole world are as
    before. *)
Theorem authenticate_provider_conflict (w : World) (opts : AuthenticateOptions.t)
    (p q : DIDProvider) :
  AuthenticateOptions.provider opts = Some p ->
  _client (self w) = Some (mkRPCClient q) ->
  q <> p ->
  authenticate opts w = (Throw ProviderConflict, w).
Proof.
  intros Hopt Hc Hne.
  rewrite authenticate_nobody_to_ask.
  - now rewrite Hopt.
  - unfold provider_in_use. rewrite Hopt, Hc. simpl.
    apply Nat.eqb_neq in Hne. now rewrite Hne.
Qed.


(** X3.  A failed attempt to authenticate again does not sign the user
    out: when a verified response fails one of the checks, the identifier
    established earlier is still the one [id] returns. *)
Theorem authenticate_failure_keeps_session (w : World)
    (opts : AuthenticateOptions.t) (conn : DIDProvider) (jws : DagJWS.t)
    (vr : VerifyJWSResult.t) (payload : AuthenticateResponse.t) (i : string) :
  _id (self w) = Some i ->
  provider_in_use opts (self w) = Some conn ->
  request_did_authenticate conn
    (AuthenticateParams.mk (randomString (drawn w))
       (AuthenticateOptions.aud opts) (AuthenticateOptions.paths opts))
    = Some jws ->
  outcome (verifyJWS (inr jws)) w = Ok vr ->
  base64urlToJSON (DagJWS.payload jws) ≫= as_AuthenticateResponse
    = Some payload ->
  includes (VerifyJWSResult.kid vr) (AuthenticateResponse.did payload) = false
  \/ AuthenticateResponse.nonce payload <> randomString (drawn w)
  \/ AuthenticateResponse.aud payload <> AuthenticateOptions.aud opts
  \/ AuthenticateResponse.exp payload * 1000 < Date_now w ->
  (exists reason : AuthFailure,
     outcome (authenticate opts) w = Throw (InvalidAuthenticationResponse reason)) /\
  outcome authenticated (after (authenticate opts) w) = Ok true /\
  outcome id (after (authenticate opts) w) = Ok i.
Proof.
  intros Hi Hp Hreq Hver Hdec Hbad.
  destruct (authenticate_after_verification w opts conn jws vr payload
              Hp Hreq Hver Hdec) as (w3 & (Hid & _) & _ & Hrun).
  unfold outcome, after. rewrite Hrun.
  destruct (first_violation _ _ _ _ _) as [reason|] eqn:Hfirst.
  - simpl. unfold authenticated, id, bind, get, ret. simpl.
    rewrite Hid, Hi. eauto.
  - apply first_violation_none in Hfirst.
    destruct Hfirst as (Hk & Hn & Ha & He).
    destruct Hbad as [Hb|[Hb|[Hb|Hb]]];
      [congruence|contradiction|contradiction|lia].
Qed.

Lemma startsWith_app (sub post : string) : startsWith sub (sub ++ post) = true.
Proof.
  induction sub as [|a sub IH]; simpl; [reflexivity|].
  now rewrite Ascii.eqb_refl, IH.
Qed.

Lemma startsWith_split (sub s : string) :
  startsWith sub s = true -> exists post, s = sub ++ post.
Proof.
  revert s. induction sub as [|a sub IH]; intros s; simpl.
  - intros _. now exists s.
  - destruct s as [|b s]; [discriminate|].
    intros Hab. apply andb_true_iff in Hab. destruct Hab as (Hab & Hrest).
    apply Ascii.eqb_eq in Hab. subst b.
    destruct (IH s Hrest) as (post & ->). now exists post.
Qed.

(** [includes] is the substring test of [String.prototype.includes]. *)
Lemma includes_substring (s sub : string) :
  includes s sub = true <-> exists pre post, s = pre ++ sub ++ post.
Proof.
  split.
  - induction s as [|c s IH]; simpl.
    + rewrite orb_false_r. intros Hs.
      destruct (startsWith_split _ _ Hs) as (post & Hpost).
      now exists "", post.
    + intros Hs. apply orb_true_iff in Hs. destruct Hs as [Hs|Hs].
      * destruct (startsWith_split _ _ Hs) as (post & Hpost).
        now exists "", post.
      * destruct (IH Hs) as (pre & post & ->).
        now exists (String c pre), post.
  - intros (pre & post & ->).
    induction pre as [|c pre IH].
    + change (includes (sub ++ post) sub = true).
      assert (Hstart : forall t, startsWith sub t = true -> includes t sub = true)
        by (intros [|c t] Ht; simpl; now rewrite Ht).
      apply Hstart, startsWith_app.
    + change (includes (String c (pre ++ sub ++ post)) sub = true).
      simpl. rewrite IH. apply orb_true_r.
Qed.

(** X4.  The [kid] check is containment: a verified response is refused
    with 'kid mismatch' exactly when the claimed identifier does not occur
    anywhere inside the [kid] of the envelope, so a [kid] made of the
    identifier and a key fragment passes, and so does any [kid] when the
    claimed identifier is the empty string. *)
Theorem authenticate_kid_check_is_containment (w : World)
    (opts : AuthenticateOptions.t) (conn : DIDProvider) (jws : DagJWS.t)
    (vr : VerifyJWSResult.t) (payload : AuthenticateResponse.t) :
  provider_in_use opts (self w) = Some conn ->
  request_did_authenticate conn
    (AuthenticateParams.mk (randomString (drawn w))
       (AuthenticateOptions.aud opts) (AuthenticateOptions.paths opts))
    = Some jws ->
  outcome (verifyJWS (inr jws)) w = Ok vr ->
  base64urlToJSON (DagJWS.payload jws) ≫= as_AuthenticateResponse
    = Some payload ->
  outcome (authenticate opts) w
    = Throw (InvalidAuthenticationResponse KidMismatch)
  <-> ~ (exists pre post : string,
           VerifyJWSResult.kid vr
             = pre ++ AuthenticateResponse.did payload ++ post).
Proof.
  intros Hp Hreq Hver Hdec.
  destruct (authenticate_after_verification w opts conn jws vr payload
              Hp Hreq Hver Hdec) as (w3 & _ & _ & Hrun).
  unfold outcome. rewrite Hrun. clear Hrun.
  rewrite <- includes_substring. unfold first_violation.
  destruct (includes _ _); simpl.
  - split; [|intros Hn; now elim Hn].
    destruct (negb (String.eqb _ _)); [discriminate|].
    destruct (strict_neq _ _); [discriminate|].
    destruct (_ <? _); discriminate.
  - split; [discriminate|reflexivity].
Qed.

Lemma provider_in_use_bound (opts : AuthenticateOptions.t) (d d' : DID)
    (conn : DIDProvider) :
  provider_in_use opts d = Some conn ->
  _client d' = Some (mkRPCClient conn) ->
  provider_in_use opts d' = Some conn.
Proof.
  unfold provider_in_use. intros Hp ->.
  destruct (AuthenticateOptions.provider opts) as [p|];
    destruct (_client d) as [[c]|]; simpl in *; try discriminate.
  - destruct (Nat.eqb c p); [|discriminate]. injection Hp as ->.
    now rewrite Nat.eqb_refl.
  - injection Hp as ->. now rewrite Nat.eqb_refl.
  - injection Hp as ->. reflexivity.
Qed.

(** X5.  A response is good for one challenge.  After a successful
    [authenticate], a provider that replays the same envelope to the next
    challenge is refused with 'wrong nonce' as soon as the two nonces
    drawn differ, and the identifier of the first call stays in place. *)
Theorem authenticate_replay_rejected (w : World)
    (opts : AuthenticateOptions.t) (conn : DIDProvider) (jws : DagJWS.t)
    (vr : VerifyJWSResult.t) (payload : AuthenticateResponse.t) :
  provider_in_use opts (self w) = Some conn ->
  request_did_authenticate conn
    (AuthenticateParams.mk (randomString (drawn w))
       (AuthenticateOptions.aud opts) (AuthenticateOptions.paths opts))
    = Some jws ->
  outcome (verifyJWS (inr jws)) w = Ok vr ->
  base64urlToJSON (DagJWS.payload jws) ≫= as_AuthenticateResponse
    = Some payload ->
  outcome (authenticate opts) w = Ok (AuthenticateResponse.did payload) ->
  request_did_authenticate conn
    (AuthenticateParams.mk (randomString (S (drawn w)))
       (AuthenticateOptions.aud opts) (AuthenticateOptions.paths opts))
    = Some jws ->
  randomString (S (drawn w)) <> randomString (drawn w) ->
  outcome (authenticate opts) (after (authenticate opts) w)
    = Throw (InvalidAuthenticationResponse WrongNonce) /\
  outcome id (after (authenticate opts) (after (authenticate opts) w))
    = Ok (AuthenticateResponse.did payload).
Proof.
  intros Hp Hreq Hver Hdec Hok Hreplay Hfresh.
  (* the first call *)
  destruct (authenticate_run w opts conn Hp)
    as (w1 & Hclient & (Hid & Hres & Hheap & Hnow) & Hdrawn & Htrace & Hrun).
  cbv zeta in Hrun. rewrite Hreq in Hrun.
  set (w2 := with_event (Requested conn "did_authenticate") (with_draw w1)) in *.
  pose proof (verifyJWS_outcome_resolver w w2 (inr jws)
                (eq_sym Hres)) as Hsameout.
  destruct (verifyJWS_frame w2 (inr jws)) as (Hself & _ & Hnow3 & Hdrawn3).
  unfold outcome, after in Hsameout, Hself, Hnow3, Hdrawn3, Hver.
  rewrite Hver in Hsameout.
  destruct (verifyJWS (inr jws) w2) as [res w3]. simpl in *. subst res.
  destruct (base64urlToJSON (DagJWS.payload jws)) as [decoded|] eqn:Hjson;
    [|discriminate]. simpl in Hdec. rewrite Hdec in Hrun.
  unfold outcome in Hok. rewrite Hrun in Hok.
  destruct (first_violation _ _ _ _ payload) eqn:Hfirst; [discriminate|].
  apply first_violation_none in Hfirst. destruct Hfirst as (Hk & Hn & Ha & He).
  unfold after at 1 3. rewrite Hrun. simpl snd.
  set (w' := set_id (Some (AuthenticateResponse.did payload)) w3).
  assert (Hclient' : _client (self w') = Some (mkRPCClient conn))
    by (unfold w'; simpl; now rewrite Hself).
  assert (Hres' : _resolver (self w') = _resolver (self w))
    by (unfold w'; simpl; now rewrite Hself).
  assert (Hdrawn' : drawn w' = S (drawn w))
    by (unfold w'; simpl; rewrite Hdrawn3; simpl; now rewrite Hdrawn).
  (* the second call *)
  assert (Hp' : provider_in_use opts (self w') = Some conn)
    by (eapply provider_in_use_bound; eassumption).
  assert (Hver' : outcome (verifyJWS (inr jws)) w' = Ok vr).
  { rewrite (verifyJWS_outcome_resolver w' w (inr jws) Hres').
    exact Hver. }
  assert (Hreq' : request_did_authenticate conn
                    (AuthenticateParams.mk (randomString (drawn w'))
                       (AuthenticateOptions.aud opts)
                       (AuthenticateOptions.paths opts)) = Some jws)
    by (now rewrite Hdrawn').
  assert (Hdec' : base64urlToJSON (DagJWS.payload jws) ≫= as_AuthenticateResponse
                  = Some payload).
  { rewrite Hjson. exact Hdec. }
  destruct (authenticate_after_verification w' opts conn jws vr payload
              Hp' Hreq' Hver' Hdec') as (w3' & (Hid' & _) & _ & Hrun').
  assert (Hwrong : first_violation (VerifyJWSResult.kid vr)
                     (randomString (drawn w')) (AuthenticateOptions.aud opts)
                     (Date_now w') payload = Some WrongNonce).
  { unfold first_violation. rewrite Hdrawn', Hk, Hn. simpl negb at 1. cbv iota.
    destruct (String.eqb_spec (randomString (drawn w))
                (randomString (S (drawn w)))) as [Heq|_];
      [now elim Hfresh|reflexivity]. }
  rewrite Hwrong in Hrun'. unfold outcome, after. rewrite Hrun'. simpl.
  split; [reflexivity|].
  unfold id, bind, get, ret. simpl. rewrite Hid'. reflexivity.
Qed.

End Handshake.

(** ** More on verification: what an accepted envelope guarantees *)

Section Envelopes.
Context `{Collaborators}.

(** The decision [verifyJWS] takes on the decoded header. *)
Lemma verifyJWS_on_header (w : World) (jws : string + DagJWS.t)
    (compact : string) (header : record) :
  compact_of jws = Some compact ->
  segment 0 compact ≫= base64urlToJSON = Some header ->
  verifyJWS jws w =
    match field "kid" header with
    | Some (JStr (String a k)) =>
        (match Resolver_resolve (_resolver (self w)) (Some (String a k)) with
         | None => Throw ResolutionFailed
         | Some doc =>
             if did_jwt_verifyJWS compact (DIDDocument.publicKey doc)
             then Ok (VerifyJWSResult.mk (String a k)
                        (segment 1 compact ≫= base64urlToJSON))
             else Throw VerificationFailed
         end,
         with_event (Resolved (_resolver (self w)) (Some (String a k))) w)
    | v => (Throw (if not_truthy v then MissingKid else IllTyped), w)
    end.
Proof.
  intros Hc Hh.
  destruct (field "kid" header) as [v|] eqn:Hk.
  - destruct v as [| [|] | [| |] | [|a k] | |];
      try (unfold verifyJWS; destruct jws as [s|d]; simpl in Hc;
           [injection Hc as ->|];
           unfold lift, bind, ret, throw; simpl;
           rewrite ?Hc; simpl; rewrite Hh, Hk; reflexivity).
    now apply verifyJWS_with_kid with (header := header).
  - unfold verifyJWS; destruct jws as [s|d]; simpl in Hc;
      [injection Hc as ->|];
      unfold lift, bind, ret, throw; simpl;
      rewrite ?Hc; simpl; rewrite Hh, Hk; reflexivity.
Qed.

Lemma verifyJWS_bad_header (w : World) (jws : string + DagJWS.t)
    (compact : string) :
  compact_of jws = Some compact ->
  segment 0 compact ≫= base64urlToJSON = None ->
  verifyJWS jws w = (Throw CodecFailed, w).
Proof.
  intros Hc Hh.
  unfold verifyJWS; destruct jws as [s|d]; simpl in Hc;
    [injection Hc as ->|];
    unfold lift, bind, ret, throw; simpl;
    rewrite ?Hc; simpl; rewrite Hh; reflexivity.
Qed.

(** X6.  [verifyJWS] is fail-closed: a result is returned only for an
    envelope whose header names a non-empty [kid], whose [kid] resolved to a
    document, and whose compact form [did-jwt] verified against the public
    keys of that very document; the [kid] returned is the one of the header
    and the payload returned is the decoding of the second segment. *)
Theorem verifyJWS_sound (w : World) (jws : string + DagJWS.t)
    (r : VerifyJWSResult.t) :
  outcome (verifyJWS jws) w = Ok r ->
  exists (compact : string) (header : record) (doc : DIDDocument.t),
    compact_of jws = Some compact /\
    segment 0 compact ≫= base64urlToJSON = Some header /\
    field "kid" header = Some (JStr (VerifyJWSResult.kid r)) /\
    VerifyJWSResult.kid r <> "" /\
    Resolver_resolve (_resolver (self w)) (Some (VerifyJWSResult.kid r))
      = Some doc /\
    did_jwt_verifyJWS compact (DIDDocument.publicKey doc) = true /\
    VerifyJWSResult.payload r = segment 1 compact ≫= base64urlToJSON.
Proof.
  unfold outcome. intros Hok.
  destruct (compact_of jws) as [compact|] eqn:Hc;
    [|rewrite verifyJWS_not_compact in Hok by assumption; discriminate].
  destruct (segment 0 compact ≫= base64urlToJSON) as [header|] eqn:Hh;
    [|rewrite (verifyJWS_bad_header w jws compact Hc Hh) in Hok; discriminate].
  rewrite (verifyJWS_on_header w jws compact header Hc Hh) in Hok.
  destruct (field "kid" header) as [[| [|] | [| |] | [|a k] | |]|] eqn:Hk;
    simpl in Hok; try discriminate.
  destruct (Resolver_resolve _ _) as [doc|] eqn:Hr; [|discriminate].
  destruct (did_jwt_verifyJWS _ _) eqn:Hv; [|discriminate].
  injection Hok as <-. simpl.
  exists compact, header, doc. repeat split; auto; discriminate.
Qed.

(** X7.  A [kid] that is present but falsy (the empty string, [null],
    [false] or [0]) is treated like a missing one: 'No kid found in jws',
    with the resolver not consulted. *)
Theorem verifyJWS_falsy_kid (w : World) (jws : string + DagJWS.t)
    (compact : string) (header : record) :
  compact_of jws = Some compact ->
  segment 0 compact ≫= base64urlToJSON = Some header ->
  not_truthy (field "kid" header) = true ->
  verifyJWS jws w = (Throw MissingKid, w).
Proof.
  intros Hc Hh Hk.
  rewrite (verifyJWS_on_header w jws compact header Hc Hh).
  destruct (field "kid" header) as [[| [|] | [| |] | [|a k] | |]|];
    simpl in *; try discriminate; reflexivity.
Qed.

(** [verifyJWS] records at most one call, a resolution. *)
Lemma verifyJWS_trace (w : World) (jws : string + DagJWS.t) :
  trace (after (verifyJWS jws) w) = trace w \/
  exists kid : string,
    trace (after (verifyJWS jws) w)
      = (trace w ++ [Resolved (_resolver (self w)) (Some kid)])%list.
Proof.
  unfold after.
  destruct (compact_of jws) as [compact|] eqn:Hc;
    [|rewrite verifyJWS_not_compact by assumption; now left].
  destruct (segment 0 compact ≫= base64urlToJSON) as [header|] eqn:Hh;
    [|rewrite (verifyJWS_bad_header w jws compact Hc Hh); now left].
  rewrite (verifyJWS_on_header w jws compact header Hc Hh).
  destruct (field "kid" header) as [[| [|] | [| |] | [|a k] | |]|];
    simpl; try (now left).
  right. now exists (String a k).
Qed.

(** X8.  [verifyJWS] needs neither a provider nor an identity, and talks
    to nobody but the resolver: it leaves the instance as it is, records at
    most one call, a resolution by the instance's resolver, and gives the
    same outcome after [deauthenticate]. *)
Theorem verifyJWS_only_asks_resolver (w : World) (jws : string + DagJWS.t) :
  self (after (verifyJWS jws) w) = self w /\
  (trace (after (verifyJWS jws) w) = trace w \/
   exists kid : string,
     trace (after (verifyJWS jws) w)
       = (trace w ++ [Resolved (_resolver (self w)) (Some kid)])%list) /\
  outcome (verifyJWS jws) (after deauthenticate w) = outcome (verifyJWS jws) w.
Proof.
  split; [apply verifyJWS_frame|split; [apply verifyJWS_trace|]].
  apply verifyJWS_outcome_resolver.
  unfold after, deauthenticate, clearProvider, bind, get, modify, ret.
  destruct (_client (self w)); reflexivity.
Qed.

End Envelopes.

(** ** More on signing: who signs, and what is returned *)

Section Signatures.
Context `{Collaborators}.

(** [createJWS] on an instance that has a provider and an identifier. *)
Lemma createJWS_run (w : World) (payload : json) (l : loc)
    (c : RPCClient) (i : string) :
  _client (self w) = Some c ->
  _id (self w) = Some i ->
  createJWS payload (Some l) w =
    let o := deref (heap w) l in
    let signer := if falsy (CreateJWSOptions.did o) then Some i
                  else CreateJWSOptions.did o in
    (match request_did_createJWS (connection c)
             (CreateJWSParams.mk signer (CreateJWSOptions.protected o)
                (CreateJWSOptions.linkedBlock o) payload) with
     | Some jws => Ok jws
     | None => Throw TransportFailed
     end,
     with_event (Requested (connection c) "did_createJWS")
       (if falsy (CreateJWSOptions.did o)
        then with_heap (<[l := set_did (Some i) o]> (heap w)) w
        else w)).
Proof.
  intros Hc Hi.
  unfold createJWS, options_or_new, assign, request, lift,
    bind, get, modify, ret, throw. simpl.
  rewrite Hc, Hi. simpl.
  destruct (falsy (CreateJWSOptions.did (deref (heap w) l))) eqn:Hf; simpl.
  - rewrite deref_insert. simpl.
    destruct (request_did_createJWS _ _); reflexivity.
  - destruct (request_did_createJWS _ _); reflexivity.
Qed.

(** X9.  An options object remembers its first signer.  [createJWS] writes
    the current identifier into a caller's object that names no [did], and
    from then on every call with that object asks the provider to sign as
    that first identifier, also on an instance that has meanwhile
    authenticated as somebody else. *)
Theorem createJWS_signs_as_first_identity (w1 w2 : World) (p1 p2 : json)
    (l : loc) (c1 c2 : RPCClient) (i1 i2 : string) :
  _client (self w1) = Some c1 -> _id (self w1) = Some i1 -> i1 <> "" ->
  falsy (CreateJWSOptions.did (deref (heap w1) l)) = true ->
  heap w2 = heap (after (createJWS p1 (Some l)) w1) ->
  _client (self w2) = Some c2 -> _id (self w2) = Some i2 ->
  CreateJWSOptions.did (deref (heap w2) l) = Some i1 /\
  outcome (createJWS p2 (Some l)) w2 =
    match request_did_createJWS (connection c2)
            (CreateJWSParams.mk (Some i1)
               (CreateJWSOptions.protected (deref (heap w1) l))
               (CreateJWSOptions.linkedBlock (deref (heap w1) l)) p2) with
    | Some jws => Ok jws
    | None => Throw TransportFailed
    end /\
  heap (after (createJWS p2 (Some l)) w2) = heap w2.
Proof.
  intros Hc1 Hi1 Hne Hfalsy Hheap Hc2 Hi2.
  unfold after in Hheap. rewrite (createJWS_run w1 p1 l c1 i1 Hc1 Hi1) in Hheap.
  cbv zeta in Hheap. rewrite Hfalsy in Hheap. simpl in Hheap.
  assert (Hobj : deref (heap w2) l = set_did (Some i1) (deref (heap w1) l))
    by (rewrite Hheap; apply deref_insert).
  assert (Hset : falsy (CreateJWSOptions.did (deref (heap w2) l)) = false).
  { rewrite Hobj. simpl. destruct i1; [congruence|reflexivity]. }
  unfold outcome, after. rewrite (createJWS_run w2 p2 l c2 i2 Hc2 Hi2).
  cbv zeta. rewrite Hset, Hobj. simpl. auto.
Qed.

(** What a successful [createJWS] has asked the provider. *)
Lemma createJWS_sound (w : World) (payload : json) (l : loc) (jws : DagJWS.t) :
  outcome (createJWS payload (Some l)) w = Ok jws ->
  exists (c : RPCClient) (signer : option string),
    _client (self w) = Some c /\
    request_did_createJWS (connection c)
      (CreateJWSParams.mk signer
         (CreateJWSOptions.protected (deref (heap w) l))
         (CreateJWSOptions.linkedBlock (deref (heap w) l)) payload) = Some jws.
Proof.
  unfold outcome. intros Hok.
  destruct (_client (self w)) as [c|] eqn:Hc.
  - destruct (_id (self w)) as [i|] eqn:Hi.
    + rewrite (createJWS_run w payload l c i Hc Hi) in Hok. cbv zeta in Hok.
      simpl in Hok.
      destruct (request_did_createJWS _ _) as [jws'|] eqn:Hreq; [|discriminate].
      injection Hok as ->. eauto.
    + unfold createJWS, options_or_new, bind, get, ret, throw in Hok.
      simpl in Hok. rewrite Hc, Hi in Hok. discriminate.
  - unfold createJWS, options_or_new, bind, get, ret, throw in Hok.
    simpl in Hok. rewrite Hc in Hok. discriminate.
Qed.

(** [createDagJWS] from the options object on. *)
Lemma createDagJWS_run (w : World) (payload : record) (l : loc) :
  createDagJWS payload (Some l) w =
    match encodePayload payload with
    | None => (Throw CodecFailed, w)
    | Some (cid, linkedBlock) =>
        let w1 := with_heap
                    (<[l := set_linkedBlock (encodeBase64 linkedBlock)
                              (deref (heap w) l)]> (heap w)) w in
        match createJWS (JStr (encodeBase64Url (CID.bytes cid))) (Some l) w1 with
        | (Throw e, w2) => (Throw e, w2)
        | (Ok jws, w2) =>
            (Ok (DagJWSResult.mk
                   (DagJWS.mk (DagJWS.payload jws) (DagJWS.signatures jws)
                      (Some cid))
                   linkedBlock), w2)
        end
    end.
Proof.
  unfold createDagJWS, options_or_new.
  unfold bind at 1. unfold ret at 1.
  unfold bind at 1. unfold lift at 1.
  destruct (encodePayload payload) as [[cid linkedBlock]|]; [|reflexivity].
  unfold ret at 1. unfold bind at 1. unfold assign at 1, modify at 1.
  cbv zeta. unfold bind at 1.
  destruct (createJWS _ _ _) as [[jws|e] w2]; reflexivity.
Qed.

(** X10.  What [createDagJWS] returns hangs together: the [link] of the
    envelope and the [linkedBlock] of the result come from one encoding of
    the payload, and the envelope is the provider's answer to a request
    whose payload is the base64url content identifier and whose
    [linkedBlock] is the base64 form of that block. *)
Theorem createDagJWS_sound (w : World) (payload : record) (l : loc)
    (r : DagJWSResult.t) :
  outcome (createDagJWS payload (Some l)) w = Ok r ->
  exists (cid : CID.t) (linkedBlock : bytes) (c : RPCClient)
         (signer : option string) (answer : DagJWS.t),
    encodePayload payload = Some (cid, linkedBlock) /\
    DagJWSResult.linkedBlock r = linkedBlock /\
    DagJWS.link (DagJWSResult.jws r) = Some cid /\
    _client (self w) = Some c /\
    request_did_createJWS (connection c)
      (CreateJWSParams.mk signer
         (CreateJWSOptions.protected (deref (heap w) l))
         (Some (encodeBase64 linkedBlock))
         (JStr (encodeBase64Url (CID.bytes cid)))) = Some answer /\
    DagJWS.payload (DagJWSResult.jws r) = DagJWS.payload answer /\
    DagJWS.signatures (DagJWSResult.jws r) = DagJWS.signatures answer.
Proof.
  unfold outcome. rewrite createDagJWS_run. intros Hok.
  destruct (encodePayload payload) as [[cid linkedBlock]|]; [|discriminate].
  cbv zeta in Hok.
  set (w1 := with_heap _ w) in Hok.
  pose proof (createJWS_sound w1 (JStr (encodeBase64Url (CID.bytes cid))) l)
    as Hsound.
  unfold outcome in Hsound.
  destruct (createJWS _ _ w1) as [[jws|e] w2]; [|discriminate].
  simpl in Hok. injection Hok as <-.
  destruct (Hsound jws eq_refl) as (c & signer & Hc & Hreq).
  unfold w1 in Hreq. simpl in Hreq. rewrite deref_insert in Hreq. simpl in Hreq.
  exists cid, linkedBlock, c, signer, jws. simpl. auto 10.
Qed.

(** X11.  Called without options, [createDagJWS] works on an object of its
    own: every object the caller holds is as it was, whether the call
    returns or throws. *)
Theorem createDagJWS_default_options_private (w : World) (payload : record)
    (l : loc) (o : CreateJWSOptions.t) :
  heap w !! l = Some o ->
  heap (after (createDagJWS payload None) w) !! l = Some o.
Proof.
  intros Hl.
  set (l0 := fresh (dom (heap w))).
  set (w0 := with_heap (<[l0 := CreateJWSOptions.empty]> (heap w)) w).
  assert (Hfresh : l <> l0).
  { intros Heq. pose proof (is_fresh (dom (heap w))) as Hnot.
    apply not_elem_of_dom in Hnot. rewrite Heq in Hl. unfold l0 in Hl.
    enough (Hno : Some o = None) by discriminate.
    rewrite <- Hl. exact Hnot. }
  assert (Hsame : createDagJWS payload None w = createDagJWS payload (Some l0) w0)
    by reflexivity.
  unfold after. rewrite Hsame, createDagJWS_run.
  destruct (encodePayload payload) as [[cid linkedBlock]|].
  - cbv zeta.
    set (w1 := with_heap _ w0).
    destruct (createJWS_heap w1 (JStr (encodeBase64Url (CID.bytes cid))) l0)
      as (_ & _ & Hother).
    unfold after in Hother.
    destruct (createJWS _ _ w1) as [[jws|e] w2]; simpl in *;
      rewrite (Hother l Hfresh); unfold w1, w0; simpl;
      rewrite !lookup_insert_ne by congruence; exact Hl.
  - simpl. unfold w0. simpl. rewrite lookup_insert_ne by congruence. exact Hl.
Qed.

End Signatures.

(** ** More on encryption and on the life of the provider binding *)

Section Envelopes2.
Context `{Collaborators} `{Decryption}.

(** X12.  On the provider's path only the first recipient counts: the
    request carries at most the [publicKeyHex] of the first key of the
    first recipient's document, and once the provider answers, its envelope
    is returned whatever the other recipients are; the local encrypters are
    not resolved. *)
Theorem createJWE_provider_sees_first_recipient_only (w : World)
    (cleartext : bytes) (first : string) (others : list string)
    (options : CreateJWEOptions.t) (c : RPCClient) (didDoc : DIDDocument.t)
    (key0 : PublicKey.t) (jwe : JWE) :
  _client (self w) = Some c ->
  Resolver_resolve (_resolver (self w)) (Some first) = Some didDoc ->
  DIDDocument.publicKey didDoc !! 0%nat = Some key0 ->
  request_did_createJWE (connection c)
    (CreateJWEParams.mk (CreateJWEOptions.protectedHeader options)
       (CreateJWEOptions.aad options) cleartext
       (if falsy (PublicKey.publicKeyHex key0) then []
        else option_list (PublicKey.publicKeyHex key0))) = Some jwe ->
  outcome (createJWE cleartext (first :: others) options) w = Ok jwe /\
  trace (after (createJWE cleartext (first :: others) options) w)
    = (trace w ++ [Resolved (_resolver (self w)) (Some first);
                   Requested (connection c) "did_createJWE"])%list.
Proof.
  intros Hc Hdoc Hkey Hreq.
  unfold outcome, after, createJWE, try_catch, request, resolver_resolve, lift,
    bind, get, modify, ret, throw. simpl.
  rewrite Hc, Hdoc. simpl. rewrite Hkey. simpl.
  replace (if falsy (PublicKey.publicKeyHex key0) then []
           else match PublicKey.publicKeyHex key0 with
                | Some hex => [hex]
                | None => []
                end)
    with (if falsy (PublicKey.publicKeyHex key0) then []
          else option_list (PublicKey.publicKeyHex key0))
    by (destruct (PublicKey.publicKeyHex key0); reflexivity).
  rewrite Hreq. simpl. split; [reflexivity|].
  now rewrite <- app_assoc.
Qed.

(** X13.  The fallback does not cover the first resolution: when the
    resolver rejects the first recipient (or there is no recipient at all,
    so that it is asked for [undefined]), [createJWE] fails with the
    resolver's error, having sent no request and tried no local
    encrypter. *)
Theorem createJWE_unresolvable_first_recipient (w : World) (cleartext : bytes)
    (recipients : list string) (options : CreateJWEOptions.t) (c : RPCClient) :
  _client (self w) = Some c ->
  Resolver_resolve (_resolver (self w)) (recipients !! 0%nat) = None ->
  createJWE cleartext recipients options w =
    (Throw ResolutionFailed,
     with_event (Resolved (_resolver (self w)) (recipients !! 0%nat)) w).
Proof.
  intros Hc Hdoc.
  unfold createJWE, try_catch, request, resolver_resolve, lift,
    bind, get, modify, ret, throw. simpl.
  now rewrite Hc, Hdoc.
Qed.

(** [createJWE] changes nothing but the record of calls. *)
Lemma createJWE_frame (w : World) (cleartext : bytes) (recipients : list string)
    (options : CreateJWEOptions.t) :
  self (after (createJWE cleartext recipients options) w) = self w /\
  heap (after (createJWE cleartext recipients options) w) = heap w.
Proof.
  unfold after, createJWE, try_catch, request, resolver_resolve, lift,
    bind, get, modify, ret, throw. simpl.
  repeat (case_match; simpl in *; simplify_eq; try (split; reflexivity)).
Qed.

(** X15.  Encrypting never touches the instance or the caller's objects:
    after [createDagJWE] (and so after [createJWE]), provider binding,
    identifier, resolver and heap are as before, whatever the outcome. *)
Theorem createDagJWE_leaves_instance (w : World) (cleartext : record)
    (recipients : list string) (options : CreateJWEOptions.t) :
  self (after (createDagJWE cleartext recipients options) w) = self w /\
  heap (after (createDagJWE cleartext recipients options) w) = heap w /\
  (forall prepared : bytes,
     prepareCleartext cleartext = Some prepared ->
     createDagJWE cleartext recipients options w
       = createJWE prepared recipients options w).
Proof.
  assert (Hrun : forall prepared : bytes,
             prepareCleartext cleartext = Some prepared ->
             createDagJWE cleartext recipients options w
               = createJWE prepared recipients options w).
  { intros prepared Hp. unfold createDagJWE, bind, lift. rewrite Hp.
    unfold ret. now destruct (createJWE prepared recipients options w) as [[?|?] ?]. }
  refine (conj _ (conj _ Hrun)); unfold after;
    (destruct (prepareCleartext cleartext) as [prepared|] eqn:Hp;
     [rewrite (Hrun prepared eq_refl);
      apply (createJWE_frame w prepared recipients options)
     |unfold createDagJWE, bind, lift; rewrite Hp; reflexivity]).
Qed.

(** X16.  Nothing that needs the provider works once it is cleared, also
    on an instance that stays authenticated: after [clearProvider], and so
    after [deauthenticate], signing, encrypting, decrypting and a new
    [authenticate] without explicit provider all throw 'No provider
    available', while [authenticated] answers as before [clearProvider]. *)
Theorem provider_needed_after_clearProvider (w : World) (payload : json)
    (l : loc) (cleartext : bytes) (recipients : list string)
    (options : CreateJWEOptions.t) (jwe : JWE) (aud : option string)
    (paths : option (list string)) :
  outcome (clearProvider ;;; createJWS payload (Some l)) w = Throw NoProvider /\
  outcome (clearProvider ;;; createJWE cleartext recipients options) w
    = Throw NoProvider /\
  outcome (clearProvider ;;; decryptJWE jwe (Some l)) w = Throw NoProvider /\
  outcome (clearProvider ;;; authenticate (AuthenticateOptions.mk None aud paths)) w
    = Throw NoProvider /\
  outcome (deauthenticate ;;; createJWS payload (Some l)) w = Throw NoProvider /\
  outcome (clearProvider ;;; authenticated) w = outcome authenticated w.
Proof.
  unfold outcome, deauthenticate, clearProvider, createJWS, createJWE, decryptJWE,
    authenticate, authenticated, options_or_new, bind, get, modify, ret, throw.
  simpl.
  destruct (_client (self w)) eqn:Hc; simpl; rewrite ?Hc; simpl;
    repeat split; reflexivity.
Qed.

(** X17.  [clearProvider] opens the way for another provider: whatever
    connection was bound, [clearProvider] followed by [setProvider] binds
    the new one without 'A different provider is already set', and the
    identifier established through the old connection stays. *)
Theorem clearProvider_then_setProvider_rebinds (w : World) (q : DIDProvider) :
  outcome (clearProvider ;;; setProvider q) w = Ok tt /\
  _client (self (after (clearProvider ;;; setProvider q) w))
    = Some (mkRPCClient q) /\
  _id (self (after (clearProvider ;;; setProvider q) w)) = _id (self w).
Proof.
  unfold outcome, after, clearProvider, setProvider, bind, get, modify, ret, throw.
  destruct (_client (self w)) eqn:Hc; simpl; rewrite ?Hc; simpl;
    repeat split; reflexivity.
Qed.

End Envelopes2.

(** ** Decryption, resolver replacement and construction *)

Section Rest.
Context `{Collaborators} `{Decryption} `{Objects}.

(** [decryptJWE] on an instance that has a provider and an identifier. *)
Lemma decryptJWE_run (w : World) (jwe : JWE) (l : loc)
    (c : RPCClient) (i : string) :
  _client (self w) = Some c ->
  _id (self w) = Some i ->
  decryptJWE jwe (Some l) w =
    let o := deref (heap w) l in
    let asked := if falsy (CreateJWSOptions.did o) then Some i
                 else CreateJWSOptions.did o in
    (match request_did_decryptJWE (connection c)
             (DecryptJWEParams.mk asked jwe) with
     | Some cleartext =>
         match decodeBase64 cleartext with
         | Some b => Ok b
         | None => Throw CodecFailed
         end
     | None => Throw TransportFailed
     end,
     with_event (Requested (connection c) "did_decryptJWE")
       (if falsy (CreateJWSOptions.did o)
        then with_heap (<[l := set_did (Some i) o]> (heap w)) w
        else w)).
Proof.
  intros Hc Hi.
  unfold decryptJWE, options_or_new, assign, request, lift,
    bind, get, modify, ret, throw. simpl.
  rewrite Hc, Hi. simpl.
  destruct (falsy (CreateJWSOptions.did (deref (heap w) l))) eqn:Hf; simpl.
  - rewrite deref_insert. simpl.
    destruct (request_did_decryptJWE _ _) as [ct|]; [|reflexivity].
    destruct (decodeBase64 ct); reflexivity.
  - destruct (request_did_decryptJWE _ _) as [ct|]; [|reflexivity].
    destruct (decodeBase64 ct); reflexivity.
Qed.

(** X18.  [decryptJWE] decrypts as the [did] of the options object when
    the caller's object names one, whoever is authenticated; the object is
    then left alone.  Only when it names none is the current identifier
    used, and written into the caller's object. *)
Theorem decryptJWE_decrypts_as_options_did (w : World) (jwe : JWE) (l : loc)
    (c : RPCClient) (i : string) :
  _client (self w) = Some c ->
  _id (self w) = Some i ->
  (forall d : string,
     CreateJWSOptions.did (deref (heap w) l) = Some d -> d <> "" ->
     outcome (decryptJWE jwe (Some l)) w
       = match request_did_decryptJWE (connection c)
                 (DecryptJWEParams.mk (Some d) jwe) with
         | Some cleartext =>
             match decodeBase64 cleartext with
             | Some b => Ok b
             | None => Throw CodecFailed
             end
         | None => Throw TransportFailed
         end /\
     heap (after (decryptJWE jwe (Some l)) w) = heap w) /\
  (falsy (CreateJWSOptions.did (deref (heap w) l)) = true ->
     outcome (decryptJWE jwe (Some l)) w
       = match request_did_decryptJWE (connection c)
                 (DecryptJWEParams.mk (Some i) jwe) with
         | Some cleartext =>
             match decodeBase64 cleartext with
             | Some b => Ok b
             | None => Throw CodecFailed
             end
         | None => Throw TransportFailed
         end /\
     CreateJWSOptions.did (deref (heap (after (decryptJWE jwe (Some l)) w)) l)
       = Some i).
Proof.
  intros Hc Hi. unfold outcome, after.
  rewrite (decryptJWE_run w jwe l c i Hc Hi). cbv zeta. split.
  - intros d Hd Hne. rewrite Hd.
    assert (Hf : falsy (Some d) = false) by (destruct d; [congruence|reflexivity]).
    rewrite Hf. simpl. auto.
  - intros Hf. rewrite Hf. simpl. rewrite deref_insert. auto.
Qed.

(** X19.  [decryptDagJWE] returns only what the provider decrypted for the
    current identifier: a result means that a provider is bound, the
    instance is authenticated, the provider answered the request to decrypt
    this envelope as that identifier, and the result is the decoding of the
    base64-decoded answer. *)
Theorem decryptDagJWE_sound (w : World) (jwe : JWE) (r : record) :
  outcome (decryptDagJWE jwe) w = Ok r ->
  exists (c : RPCClient) (i cleartext : string) (b : bytes),
    _client (self w) = Some c /\
    _id (self w) = Some i /\
    request_did_decryptJWE (connection c) (DecryptJWEParams.mk (Some i) jwe)
      = Some cleartext /\
    decodeBase64 cleartext = Some b /\
    decodeCleartext b = Some r.
Proof.
  unfold outcome. intros Hok.
  set (l0 := fresh (dom (heap w))) in *.
  set (w0 := with_heap (<[l0 := CreateJWSOptions.empty]> (heap w)) w).
  assert (Hsame : decryptJWE jwe None w = decryptJWE jwe (Some l0) w0)
    by reflexivity.
  unfold decryptDagJWE, bind in Hok. rewrite Hsame in Hok.
  destruct (_client (self w)) as [c|] eqn:Hc.
  - destruct (_id (self w)) as [i|] eqn:Hi.
    + rewrite (decryptJWE_run _ _ _ c i) in Hok by assumption.
      cbv zeta in Hok.
      unfold w0 in Hok. simpl heap in Hok. rewrite deref_insert in Hok.
      simpl in Hok.
      destruct (request_did_decryptJWE _ _) as [ct|] eqn:Hreq; [|discriminate].
      destruct (decodeBase64 ct) as [b|] eqn:Hb; [|discriminate].
      unfold lift in Hok.
      destruct (decodeCleartext b) as [r'|] eqn:Hr; [|discriminate].
      injection Hok as ->. exists c, i, ct, b. auto.
    + unfold decryptJWE, options_or_new, bind, get, ret, throw in Hok.
      simpl in Hok. rewrite Hc, Hi in Hok. discriminate.
  - unfold decryptJWE, options_or_new, bind, get, ret, throw in Hok.
    simpl in Hok. rewrite Hc in Hok. discriminate.
Qed.

(** X20.  [setResolver] tells a [Resolver] from a registry by the two
    property names [registry] and [cache] alone.  An object that has both
    becomes the resolver as it is and the [cache] argument is ignored; any
    other object is wrapped by [new Resolver(object, cache)].  Provider
    binding and identifier are not touched, and the next [resolve] asks the
    resolver just set. *)
Theorem setResolver_duck_typing (w : World) (o : nat) (cache : option nat)
    (didUrl : string) :
  _resolver (self (after (setResolver o cache) w))
    = (if has_property o "registry" && has_property o "cache" then o
       else new_Resolver o cache) /\
  _client (self (after (setResolver o cache) w)) = _client (self w) /\
  _id (self (after (setResolver o cache) w)) = _id (self w) /\
  trace (after (setResolver o cache ;;; resolve didUrl) w)
    = (trace w ++
       [Resolved (if has_property o "registry" && has_property o "cache"
                  then o else new_Resolver o cache) (Some didUrl)])%list /\
  outcome (setResolver o cache ;;; resolve didUrl) w
    = match Resolver_resolve
              (if has_property o "registry" && has_property o "cache"
               then o else new_Resolver o cache) (Some didUrl) with
      | Some doc => Ok doc
      | None => Throw ResolutionFailed
      end.
Proof.
  unfold outcome, after, setResolver, isResolver, resolve, resolver_resolve,
    lift, bind, get, modify, ret, throw. simpl.
  repeat split; try reflexivity;
    destruct (has_property o "registry" && has_property o "cache"); simpl;
    try reflexivity;
    destruct (Resolver_resolve _ _); reflexivity.
Qed.

(** X21.  A new instance is unauthenticated and bound to the provider it
    was given, if any: on [new DID()] the first [authenticate()] without
    provider throws 'No provider available', and on [new DID({ provider })]
    an [authenticate] with another provider throws 'A different provider is
    already set'.  Built without a resolver, it resolves through
    [new Resolver({}, cache)]. *)
Theorem constructor_then_authenticate (w : World) (cache : option nat)
    (aud : option string) (paths : option (list string)) (p q : DIDProvider) :
  outcome (constructor (DIDOptions.mk None None cache) ;;; authenticated) w
    = Ok false /\
  outcome (constructor (DIDOptions.mk None None cache) ;;; id) w
    = Throw NotAuthenticated /\
  outcome (constructor (DIDOptions.mk None None cache) ;;;
           authenticate (AuthenticateOptions.mk None aud paths)) w
    = Throw NoProvider /\
  _resolver (self (after (constructor (DIDOptions.mk None None cache)) w))
    = new_Resolver empty_object cache /\
  (q <> p ->
   outcome (constructor (DIDOptions.mk (Some p) None cache) ;;;
            authenticate (AuthenticateOptions.mk (Some q) aud paths)) w
     = Throw ProviderConflict).
Proof.
  unfold outcome, after, constructor, setResolver, isResolver,
    authenticated, id, authenticate, setProvider,
    bind, get, modify, ret, throw. simpl.
  rewrite !empty_object_has_no_property. simpl.
  repeat split; try reflexivity.
  intros Hne. apply Nat.eqb_neq in Hne. rewrite Nat.eqb_sym in Hne.
  now rewrite Hne.
Qed.

End Rest.

(** ** Across methods: one nonce per attempt, signing after the handshake *)

Section Sessions.
Context `{Collaborators}.

(** X22.  Every attempt that has a provider to talk to uses up one nonce
    and sends one [did_authenticate] request to that provider and to no
    other, whether it then succeeds or fails; the only further call is at
    most one resolution, and the caller's objects are not touched. *)
Theorem authenticate_one_nonce_one_request (w : World)
    (opts : AuthenticateOptions.t) (conn : DIDProvider) :
  provider_in_use opts (self w) = Some conn ->
  drawn (after (authenticate opts) w) = S (drawn w) /\
  heap (after (authenticate opts) w) = heap w /\
  (trace (after (authenticate opts) w)
     = (trace w ++ [Requested conn "did_authenticate"])%list \/
   exists kid : string,
     trace (after (authenticate opts) w)
       = (trace w ++ [Requested conn "did_authenticate";
                      Resolved (_resolver (self w)) (Some kid)])%list).
Proof.
  intros Hp.
  destruct (authenticate_run w opts conn Hp)
    as (w1 & Hclient & (Hid & Hres & Hheap & Hnow) & Hdrawn & Htrace & Hrun).
  unfold after. rewrite Hrun. clear Hrun. cbv zeta.
  set (w2 := with_event (Requested conn "did_authenticate") (with_draw w1)).
  assert (Hd2 : drawn w2 = S (drawn w)) by (simpl; now rewrite Hdrawn).
  assert (Hh2 : heap w2 = heap w) by exact Hheap.
  assert (Ht2 : trace w2 = (trace w ++ [Requested conn "did_authenticate"])%list)
    by (simpl; now rewrite Htrace).
  destruct (request_did_authenticate conn _) as [jws|]; [|simpl; auto].
  destruct (verifyJWS_frame w2 (inr jws)) as (_ & Hheap3 & _ & Hdrawn3).
  pose proof (verifyJWS_trace w2 (inr jws)) as Htrace3.
  unfold after in Hheap3, Hdrawn3, Htrace3.
  assert (Hr2 : _resolver (self w2) = _resolver (self w)) by exact Hres.
  rewrite Hr2, Ht2, Hd2, Hh2 in *.
  assert (Hall : forall (res : Result string) (w3 w4 : World),
             drawn w4 = drawn w3 -> heap w4 = heap w3 -> trace w4 = trace w3 ->
             drawn w3 = S (drawn w) -> heap w3 = heap w ->
             (trace w3 = (trace w ++ [Requested conn "did_authenticate"])%list \/
              exists kid : string,
                trace w3 = ((trace w ++ [Requested conn "did_authenticate"])
                              ++ [Resolved (_resolver (self w)) (Some kid)])%list) ->
             drawn (res, w4).2 = S (drawn w) /\
             heap (res, w4).2 = heap w /\
             (trace (res, w4).2
                = (trace w ++ [Requested conn "did_authenticate"])%list \/
              exists kid : string,
                trace (res, w4).2
                  = (trace w ++ [Requested conn "did_authenticate";
                                 Resolved (_resolver (self w)) (Some kid)])%list)).
  { intros res w3 w4 E1 E2 E3 E4 E5 E6. simpl. rewrite E1, E2, E3.
    repeat split; auto.
    destruct E6 as [E6|(kid & E6)]; [now left|right].
    exists kid. rewrite E6. now rewrite <- app_assoc. }
  destruct (verifyJWS (inr jws) w2) as [[vr|e] w3]; simpl in Hheap3, Hdrawn3, Htrace3;
    [|now apply (Hall _ w3 w3)].
  destruct (base64urlToJSON (DagJWS.payload jws)) as [decoded|];
    [|now apply (Hall _ w3 w3)].
  destruct (as_AuthenticateResponse decoded) as [payload|];
    [|now apply (Hall _ w3 w3)].
  destruct (first_violation _ _ _ _ payload);
    [now apply (Hall _ w3 w3)|now apply (Hall _ w3)].
Qed.

(** X23.  After a successful handshake the instance signs as the
    identifier the response claimed: [authenticate] followed by [createJWS]
    without options asks the provider in use for a signature whose [did] is
    that identifier. *)
Theorem authenticate_then_createJWS (w : World) (opts : AuthenticateOptions.t)
    (conn : DIDProvider) (jws : DagJWS.t) (vr : VerifyJWSResult.t)
    (payload : AuthenticateResponse.t) (message : json) :
  provider_in_use opts (self w) = Some conn ->
  request_did_authenticate conn
    (AuthenticateParams.mk (randomString (drawn w))
       (AuthenticateOptions.aud opts) (AuthenticateOptions.paths opts))
    = Some jws ->
  outcome (verifyJWS (inr jws)) w = Ok vr ->
  base64urlToJSON (DagJWS.payload jws) ≫= as_AuthenticateResponse
    = Some payload ->
  outcome (authenticate opts) w = Ok (AuthenticateResponse.did payload) ->
  outcome (authenticate opts ;;; createJWS message None) w =
    match request_did_createJWS conn
            (CreateJWSParams.mk (Some (AuthenticateResponse.did payload))
               None None message) with
    | Some signed => Ok signed
    | None => Throw TransportFailed
    end.
Proof.
  intros Hp Hreq Hver Hdec Hok.
  destruct (authenticate_after_verification w opts conn jws vr payload
              Hp Hreq Hver Hdec) as (w3 & _ & Hclient & Hrun).
  unfold outcome in *. rewrite Hrun in Hok. unfold bind. rewrite Hrun.
  destruct (first_violation _ _ _ _ _); [discriminate|].
  set (w' := set_id (Some (AuthenticateResponse.did payload)) w3).
  set (l0 := fresh (dom (heap w'))).
  set (w0 := with_heap (<[l0 := CreateJWSOptions.empty]> (heap w')) w').
  assert (Hsame : createJWS message None w' = createJWS message (Some l0) w0)
    by reflexivity.
  rewrite Hsame.
  rewrite (createJWS_run _ _ _ (mkRPCClient conn) (AuthenticateResponse.did payload))
    by first [exact Hclient | reflexivity].
  cbv zeta. unfold w0. simpl heap. rewrite deref_insert. reflexivity.
Qed.

(** X24.  Cutting a compact envelope at its dots loses nothing: joining
    the segments of [split] with the separator gives the string back, and
    there is always a first segment, so that [verifyJWS] always has a header
    segment to decode. *)
Theorem split_join (sep : ascii) (s : string) :
  String.concat (String sep "") (split sep s) = s /\
  (exists first : string, split sep s !! 0%nat = Some first).
Proof.
  assert (Hne : forall t, split sep t <> []).
  { intros [|c t]; simpl; [discriminate|].
    destruct (Ascii.eqb c sep); [discriminate|].
    destruct (split sep t); discriminate. }
  split.
  - induction s as [|c s IH]; simpl; [reflexivity|].
    destruct (Ascii.eqb_spec c sep) as [->|Hc].
    + destruct (split sep s) as [|x xs] eqn:Hs; [now elim (Hne s)|].
      change (String.concat (String sep "") ("" :: x :: xs))
        with (String sep (String.concat (String sep "") (x :: xs))).
      now rewrite IH.
    + destruct (split sep s) as [|x xs] eqn:Hs; [now elim (Hne s)|].
      rewrite <- IH. destruct xs; reflexivity.
  - destruct (split sep s) as [|x xs] eqn:Hs; [now elim (Hne s)|].
    now exists x.
Qed.

End Sessions.

(** ** The further theorems at work on the concrete provider *)

Section MoreExamples.
#[local] Existing Instance Demo.world.
#[local] Existing Instance DemoMore.decryption.
#[local] Existing Instance DemoMore.objects.

Lemma authenticate_provider_conflict_witness :
  authenticate (Demo.opts (Some 8%nat)) Demo.signed_in
    = (Throw ProviderConflict, Demo.signed_in).
Proof.
  apply (authenticate_provider_conflict Demo.signed_in (Demo.opts (Some 8%nat))
           8%nat 7%nat); [reflexivity|reflexivity|lia].
Defined.


Lemma authenticate_failure_keeps_session_witness :
  (exists reason : AuthFailure,
     outcome (authenticate (Demo.opts None)) DemoMore.returning
       = Throw (InvalidAuthenticationResponse reason)) /\
  outcome authenticated (after (authenticate (Demo.opts None)) DemoMore.returning)
    = Ok true /\
  outcome id (after (authenticate (Demo.opts None)) DemoMore.returning)
    = Ok "did:ex:0".
Proof.
  apply (authenticate_failure_keeps_session DemoMore.returning (Demo.opts None)
           7%nat Demo.envelope Demo.verified Demo.claimed "did:ex:0");
    try reflexivity.
  right; right; right. reflexivity.
Defined.

Lemma authenticate_kid_check_is_containment_witness :
  outcome (authenticate (Demo.opts (Some 7%nat))) Demo.early
    = Throw (InvalidAuthenticationResponse KidMismatch)
  <-> ~ (exists pre post : string,
           VerifyJWSResult.kid Demo.verified
             = pre ++ AuthenticateResponse.did Demo.claimed ++ post).
Proof.
  apply (authenticate_kid_check_is_containment Demo.early
           (Demo.opts (Some 7%nat)) 7%nat Demo.envelope Demo.verified
           Demo.claimed); reflexivity.
Defined.

Lemma authenticate_replay_rejected_witness :
  outcome (authenticate (Demo.opts (Some 7%nat)))
    (after (authenticate (Demo.opts (Some 7%nat))) Demo.early)
    = Throw (InvalidAuthenticationResponse WrongNonce) /\
  outcome id
    (after (authenticate (Demo.opts (Some 7%nat)))
       (after (authenticate (Demo.opts (Some 7%nat))) Demo.early))
    = Ok (AuthenticateResponse.did Demo.claimed).
Proof.
  apply (authenticate_replay_rejected Demo.early (Demo.opts (Some 7%nat))
           7%nat Demo.envelope Demo.verified Demo.claimed);
    first [reflexivity | discriminate].
Defined.

Lemma verifyJWS_sound_witness :
  exists (compact : string) (header : record) (doc : DIDDocument.t),
    compact_of (inr Demo.envelope) = Some compact /\
    segment 0 compact ≫= base64urlToJSON = Some header /\
    field "kid" header = Some (JStr (VerifyJWSResult.kid Demo.verified)) /\
    VerifyJWSResult.kid Demo.verified <> "" /\
    Resolver_resolve (_resolver (self Demo.early))
      (Some (VerifyJWSResult.kid Demo.verified)) = Some doc /\
    did_jwt_verifyJWS compact (DIDDocument.publicKey doc) = true /\
    VerifyJWSResult.payload Demo.verified
      = segment 1 compact ≫= base64urlToJSON.
Proof.
  apply (verifyJWS_sound Demo.early (inr Demo.envelope) Demo.verified).
  reflexivity.
Defined.

Lemma verifyJWS_falsy_kid_witness :
  @verifyJWS DemoMore.codec (inl "void.pl.sig") Demo.early
    = (Throw MissingKid, Demo.early).
Proof.
  apply (@verifyJWS_falsy_kid DemoMore.codec Demo.early (inl "void.pl.sig")
           "void.pl.sig" [("kid", JStr "")]); reflexivity.
Defined.

Lemma createJWS_signs_as_first_identity_witness :
  CreateJWSOptions.did (deref (heap DemoMore.second_identity) 3%nat)
    = Some "did:ex:1" /\
  outcome (createJWS (JStr "second") (Some 3%nat)) DemoMore.second_identity =
    match request_did_createJWS 7%nat
            (CreateJWSParams.mk (Some "did:ex:1") None None (JStr "second")) with
    | Some jws => Ok jws
    | None => Throw TransportFailed
    end /\
  heap (after (createJWS (JStr "second") (Some 3%nat)) DemoMore.second_identity)
    = heap DemoMore.second_identity.
Proof.
  assert (Hfirst := createJWS_signs_as_first_identity Demo.signed_in
            DemoMore.second_identity JNull (JStr "second") 3%nat
            (mkRPCClient 7%nat) (mkRPCClient 7%nat) "did:ex:1" "did:ex:2").
  apply Hfirst; first [reflexivity | discriminate].
Defined.

Lemma createDagJWS_sound_witness :
  exists (cid : CID.t) (linkedBlock : bytes) (c : RPCClient)
         (signer : option string) (answer : DagJWS.t),
    encodePayload [] = Some (cid, linkedBlock) /\
    [Byte.x62] = linkedBlock /\
    Some (CID.mk [Byte.x63]) = Some cid /\
    _client (self Demo.signed_in) = Some c /\
    request_did_createJWS (connection c)
      (CreateJWSParams.mk signer
         (CreateJWSOptions.protected (deref (heap Demo.signed_in) 3%nat))
         (Some (encodeBase64 linkedBlock))
         (JStr (encodeBase64Url (CID.bytes cid)))) = Some answer /\
    "cid" = DagJWS.payload answer /\
    [JWSSignature.mk "hdr" "sig"] = DagJWS.signatures answer.
Proof.
  exact (createDagJWS_sound Demo.signed_in [] 3%nat
           (DagJWSResult.mk
              (DagJWS.mk "cid" [JWSSignature.mk "hdr" "sig"]
                 (Some (CID.mk [Byte.x63])))
              [Byte.x62]) eq_refl).
Defined.

Lemma createDagJWS_default_options_private_witness :
  heap (after (createDagJWS [] None) DemoMore.with_object) !! 5%nat
    = Some (CreateJWSOptions.mk (Some "did:ex:5") None None).
Proof.
  apply (createDagJWS_default_options_private DemoMore.with_object [] 5%nat).
  reflexivity.
Defined.

Lemma createJWE_provider_sees_first_recipient_only_witness :
  outcome (createJWE [] ["did:ex:1"; "did:ex:3"; "nobody"] CreateJWEOptions.empty)
    Demo.signed_in = Ok "jwe-from-provider" /\
  trace (after (createJWE [] ["did:ex:1"; "did:ex:3"; "nobody"]
                  CreateJWEOptions.empty) Demo.signed_in)
    = [Resolved 0%nat (Some "did:ex:1"); Requested 7%nat "did_createJWE"].
Proof.
  assert (Hfirst := createJWE_provider_sees_first_recipient_only Demo.signed_in
            [] "did:ex:1" ["did:ex:3"; "nobody"] CreateJWEOptions.empty
            (mkRPCClient 7%nat) Demo.keyed_doc
            (PublicKey.mk "did:ex:1#key-1" (Some "04ab")) "jwe-from-provider").
  exact (Hfirst eq_refl eq_refl eq_refl eq_refl).
Defined.

Lemma createJWE_unresolvable_first_recipient_witness :
  createJWE [] [] CreateJWEOptions.empty Demo.signed_in
    = (Throw ResolutionFailed, with_event (Resolved 0%nat None) Demo.signed_in).
Proof.
  apply (createJWE_unresolvable_first_recipient Demo.signed_in [] []
           CreateJWEOptions.empty (mkRPCClient 7%nat)); reflexivity.
Defined.

Lemma decryptJWE_decrypts_as_options_did_witness :
  outcome (decryptJWE "jwe-from-provider" (Some 5%nat)) DemoMore.with_object
    = Ok [Byte.x68; Byte.x69] /\
  heap (after (decryptJWE "jwe-from-provider" (Some 5%nat)) DemoMore.with_object)
    = heap DemoMore.with_object.
Proof.
  assert (Hdid := decryptJWE_decrypts_as_options_did DemoMore.with_object
            "jwe-from-provider" 5%nat (mkRPCClient 7%nat) "did:ex:1").
  destruct Hdid as (Hnamed & _); [reflexivity|reflexivity|].
  apply (Hnamed "did:ex:5"); [reflexivity|discriminate].
Defined.

Lemma decryptDagJWE_sound_witness :
  exists (c : RPCClient) (i cleartext : string) (b : bytes),
    _client (self Demo.signed_in) = Some c /\
    _id (self Demo.signed_in) = Some i /\
    request_did_decryptJWE (connection c)
      (DecryptJWEParams.mk (Some i) "jwe-from-provider") = Some cleartext /\
    decodeBase64 cleartext = Some b /\
    decodeCleartext b = Some DemoMore.secret.
Proof.
  apply (decryptDagJWE_sound Demo.signed_in "jwe-from-provider" DemoMore.secret).
  reflexivity.
Defined.

Lemma authenticate_one_nonce_one_request_witness :
  drawn (after (authenticate (Demo.opts (Some 7%nat))) Demo.late) = 1%nat /\
  heap (after (authenticate (Demo.opts (Some 7%nat))) Demo.late)
    = heap Demo.late /\
  (trace (after (authenticate (Demo.opts (Some 7%nat))) Demo.late)
     = (trace Demo.late ++ [Requested 7%nat "did_authenticate"])%list \/
   exists kid : string,
     trace (after (authenticate (Demo.opts (Some 7%nat))) Demo.late)
       = (trace Demo.late ++ [Requested 7%nat "did_authenticate";
                              Resolved 0%nat (Some kid)])%list).
Proof.
  apply (authenticate_one_nonce_one_request Demo.late (Demo.opts (Some 7%nat))
           7%nat).
  reflexivity.
Defined.

Lemma authenticate_then_createJWS_witness :
  outcome (authenticate (Demo.opts (Some 7%nat)) ;;; createJWS (JStr "m") None)
    Demo.early =
    match request_did_createJWS 7%nat
            (CreateJWSParams.mk (Some "did:ex:1") None None (JStr "m")) with
    | Some signed => Ok signed
    | None => Throw TransportFailed
    end.
Proof.
  apply (authenticate_then_createJWS Demo.early (Demo.opts (Some 7%nat)) 7%nat
           Demo.envelope Demo.verified Demo.claimed (JStr "m")); reflexivity.
Defined.

End MoreExamples.
